(** * Page generator: placeholder rendering, snippet aggregation, marker injection

    A shallow embedding of [src/generator.py].  Python values, strings and
    exceptions are modelled first (module [Py]); the functions of the
    generator follow, under their own names; the theorems come last. *)

From Stdlib Require Import Ascii.
From stdpp Require Import gmap strings pretty list sorting.

Local Open Scope Z_scope.

(* stdpp freezes [+:+] under [simpl]; the proofs below compute with it *)
#[local] Arguments String.append !_ _ / : simpl nomatch.

(** ** Python values and built-ins *)

(** A row value: [None], an [int] or a [str] (the scalar variants of a
    record).  A [str] is a sequence of code points; the model covers the
    code points below 256, one [ascii] each.  An [int] is unbounded and its
    decimal conversions are total: the length limit that recent CPython
    versions put on them (4300 digits unless configured otherwise) is far
    above what an integer column holds and is not modelled. *)
Inductive value : Type :=
  | VNone
  | VInt (z : Z)
  | VStr (s : string).

(** The exceptions that can travel through the generator.
    [OperationalError] is the database driver's own exception class, raised
    by [psycopg.connect] when the server cannot be reached. *)
Inductive exn : Type :=
  | TypeError
  | ValueError
  | KeyError
  | FileNotFoundError
  | OperationalError
  | GenerationError (msg : string).

Inductive result (A : Type) : Type :=
  | Ok (a : A)
  | Raise (e : exn).
Arguments Ok {A} a.
Arguments Raise {A} e.

Module Py.

Definition code (c : ascii) : N := N_of_ascii c.

Definition between (lo hi : N) (c : ascii) : bool :=
  ((lo <=? code c) && (code c <=? hi))%N.

(** [s.startswith(p)] *)
Fixpoint startswith (p s : string) : bool :=
  match p, s with
  | EmptyString, _ => true
  | String a p', String b s' => if decide (a = b) then startswith p' s' else false
  | String _ _, EmptyString => false
  end.

(** [s[n:]] *)
Fixpoint drop (n : nat) (s : string) : string :=
  match n, s with
  | O, _ => s
  | S n', String _ s' => drop n' s'
  | S _, EmptyString => EmptyString
  end.

(** [sub in s] *)
Fixpoint contains (sub s : string) : bool :=
  startswith sub s ||
  match s with
  | EmptyString => false
  | String _ s' => contains sub s'
  end.

(** [sep.join(parts)] *)
Fixpoint join (sep : string) (parts : list string) : string :=
  match parts with
  | [] => ""
  | [x] => x
  | x :: rest => x +:+ sep +:+ join sep rest
  end.

(** The left-to-right scan shared by [str.replace] and [re.sub]: at each
    position [try_match] either consumes a non-empty match, giving the
    text to emit and the input left after the match, or the current
    character is copied and the scan moves one position on.  Emitted
    text is never looked at again.  The fuel bounds the number of steps;
    [String.length s] is always enough (lemma [scan_step]). *)
Section Scan.
Variable try_match : string → option (string * string).

Fixpoint scan_fuel (fuel : nat) (s : string) : string :=
  match fuel with
  | O => s
  | S fuel' =>
      match try_match s with
      | Some (out, rest) => out +:+ scan_fuel fuel' rest
      | None =>
          match s with
          | EmptyString => EmptyString
          | String c s' => String c (scan_fuel fuel' s')
          end
      end
  end.

Definition scan (s : string) : string := scan_fuel (String.length s) s.
End Scan.

(** What [s.replace(old, new)] does at one position, for a non-empty
    [old]. *)
Definition replace_at (old new t : string) : option (string * string) :=
  if startswith old t then Some (new, drop (String.length old) t) else None.

(** [s.replace(old, new)]; with an empty [old], [new] is put before every
    character and at the end. *)
Definition replace (s old new : string) : string :=
  match old with
  | EmptyString =>
      new +:+ (fix between_chars (t : string) : string :=
                 match t with
                 | EmptyString => EmptyString
                 | String c t' => String c (new +:+ between_chars t')
                 end) s
  | String _ _ => scan (replace_at old new) s
  end.

(** [str(v)] *)
Definition str (v : value) : string :=
  match v with
  | VNone => "None"
  | VInt z => pretty z
  | VStr s => s
  end.

(** White space skipped by [int()] around a number. *)
Definition is_space (c : ascii) : bool :=
  between 9 13 c || (code c =? 32)%N || (code c =? 133)%N || (code c =? 160)%N.

Fixpoint lstrip (s : string) : string :=
  match s with
  | EmptyString => EmptyString
  | String c s' => if is_space c then lstrip s' else s
  end.

Fixpoint rstrip (s : string) : string :=
  match s with
  | EmptyString => EmptyString
  | String c s' =>
      match rstrip s' with
      | EmptyString => if is_space c then EmptyString else String c EmptyString
      | r => String c r
      end
  end.

Definition digit_value (c : ascii) : option Z :=
  if between 48 57 c then Some (Z.of_N (code c) - 48) else None.

(** The digits after the first one: single underscores may separate
    digits, and the literal cannot end in one. *)
Fixpoint more_digits (acc : Z) (after_underscore : bool) (s : string) : option Z :=
  match s with
  | EmptyString => if after_underscore then None else Some acc
  | String c s' =>
      if decide (c = "_"%char)
      then if after_underscore then None else more_digits acc true s'
      else match digit_value c with
           | Some d => more_digits (10 * acc + d) false s'
           | None => None
           end
  end.

Definition parse_digits (s : string) : option Z :=
  match s with
  | EmptyString => None
  | String c s' =>
      match digit_value c with
      | Some d => more_digits d false s'
      | None => None
      end
  end.

(** [int(s)] for a [str] in base ten: surrounding white space, an
    optional sign, digits.  [None] stands for [ValueError]. *)
Definition int_of_str (s : string) : option Z :=
  match rstrip (lstrip s) with
  | EmptyString => None
  | String c t =>
      if decide (c = "+"%char) then parse_digits t
      else if decide (c = "-"%char) then Z.opp <$> parse_digits t
      else parse_digits (String c t)
  end.

(** [int(v)] *)
Definition int (v : value) : result Z :=
  match v with
  | VNone => Raise TypeError
  | VInt z => Ok z
  | VStr s =>
      match int_of_str s with
      | Some z => Ok z
      | None => Raise ValueError
      end
  end.

(** [c.isspace()], for a code point below 256 *)
Definition isspace (c : ascii) : bool :=
  between 9 13 c || between 28 32 c || (code c =? 133)%N || (code c =? 160)%N.

Fixpoint lstrip_spaces (s : string) : string :=
  match s with
  | EmptyString => EmptyString
  | String c s' => if isspace c then lstrip_spaces s' else s
  end.

Fixpoint rstrip_spaces (s : string) : string :=
  match s with
  | EmptyString => EmptyString
  | String c s' =>
      match rstrip_spaces s' with
      | EmptyString => if isspace c then EmptyString else String c EmptyString
      | r => String c r
      end
  end.

(** [s.strip()] *)
Definition strip (s : string) : string := rstrip_spaces (lstrip_spaces s).

(** [bool(v)] *)
Definition truthy (v : value) : bool :=
  match v with
  | VNone => false
  | VInt z => negb (z =? 0)
  | VStr s => match s with EmptyString => false | String _ _ => true end
  end.

End Py.

(** ** The error monad of the pure functions *)

#[global] Instance result_ret : MRet result := λ A a, Ok a.

#[global] Instance result_bind : MBind result := λ A B k m,
  match m with
  | Ok a => k a
  | Raise e => Raise e
  end.

(** [try: body except classes: handler] *)
Definition try_except {A : Type} (body : result A) (classes : exn → bool)
    (handler : result A) : result A :=
  match body with
  | Ok a => Ok a
  | Raise e => if classes e then handler else Raise e
  end.

(** ** Module constants *)

Definition PLACEHOLDER_MARKER : string := "--- INSERT SNIPPETS HERE ---".

(** The character class [[a-zA-Z0-9_]]. *)
Definition is_field_char (c : ascii) : bool :=
  Py.between 97 122 c || Py.between 65 90 c || Py.between 48 57 c
  || (Py.code c =? 95)%N.

(** The longest prefix of characters of a class, and the rest. *)
Fixpoint span (p : ascii → bool) (s : string) : string * string :=
  match s with
  | EmptyString => (EmptyString, EmptyString)
  | String c s' =>
      if p c then let '(a, b) := span p s' in (String c a, b)
      else (EmptyString, s)
  end.

(** [PLACEHOLDER_PATTERN.match] at the start of [s], for the pattern
    [%%([a-zA-Z0-9_]+)%%]: group 1 and the input after the match.  The
    greedy run must be followed by [%%]; a shorter run would be followed by
    a class character, so backtracking finds nothing more. *)
Definition PLACEHOLDER_PATTERN (s : string) : option (string * string) :=
  if Py.startswith "%%" s then
    let '(field, after) := span is_field_char (Py.drop 2 s) in
    match field with
    | EmptyString => None
    | String _ _ =>
        if Py.startswith "%%" after then Some (field, Py.drop 2 after) else None
    end
  else None.

(** ** Rendering *)

Abbreviation record := (gmap string value).

(** The inner [replace] callback of [render_snippet]. *)
Definition replace_field (data : record) (field : string) : string :=
  match data !! field with
  | None => ""                     (* data.get(field) is None: key absent *)
  | Some VNone => ""               (* ... or the value is None *)
  | Some v => Py.str v
  end.

(** What [PLACEHOLDER_PATTERN.sub] does at one position: on a match, the
    callback's text for group 1 and the input after the match. *)
Definition placeholder_sub (data : record) (s : string) : option (string * string) :=
  match PLACEHOLDER_PATTERN s with
  | Some (field, rest) => Some (replace_field data field, rest)
  | None => None
  end.

(** [PLACEHOLDER_PATTERN.sub(replace, snippet_template)] *)
Definition render_snippet (snippet_template : string) (data : record) : string :=
  Py.scan (placeholder_sub data) snippet_template.

Definition _is_snippet_active (snippet : record) : result bool :=
  match snippet !! "active" with
  | None => Ok false
  | Some active_value =>
      try_except
        (n ← Py.int active_value; Ok (negb (n =? 0)))
        (λ e, match e with TypeError | ValueError => true | _ => false end)
        (Ok false)
  end.

(** The [for] loop of [render_snippets], with its two accumulators. *)
Fixpoint render_loop (snippet_template : string) (snippets : list record)
    (rendered_snippets : list string) (skipped : nat) : result (list string * nat) :=
  match snippets with
  | [] => Ok (rendered_snippets, skipped)
  | snippet :: rest =>
      active ← _is_snippet_active snippet;
      if negb active
      then render_loop snippet_template rest rendered_snippets (S skipped)
      else render_loop snippet_template rest
             (rendered_snippets ++ [render_snippet snippet_template snippet]) skipped
  end.

Definition render_snippets (snippet_template : string) (snippets : list record)
    : result string :=
  '(rendered_snippets, _) ← render_loop snippet_template snippets [] O;
  Ok (Py.join (String "010" "") rendered_snippets).

Definition inject_snippets (skeleton rendered_snippets : string) : result string :=
  if negb (Py.contains PLACEHOLDER_MARKER skeleton)
  then Raise (GenerationError
         "Skeleton template missing placeholder marker '--- INSERT SNIPPETS HERE ---'")
  else Ok (Py.replace skeleton PLACEHOLDER_MARKER rendered_snippets).

(** ** The world of a run *)

Record DBConfig : Type := {
  host : string;
  port : Z;
  dbname : string;
  user : string;
  password : string
}.

(** The two queries of the generator, as the server answers them.  A server
    that is reached answers: errors raised while a query runs have no model
    here. *)
Record database : Type := {
  (** [SELECT * FROM tlinq.trip_page WHERE page_name = %s], [fetchone()] *)
  trip_page : string → option record;
  (** [SELECT * FROM tlinq.trip_snippet WHERE page_id = %s ORDER BY snippet_id],
      [fetchall()] *)
  trip_snippet : value → list record
}.

(** What a run reads and writes outside the process.  Paths are strings;
    [pathlib] and [repr] are taken as they are, without a model of their
    own. *)
Record world : Type := {
  environ : gmap string string;                               (* os.environ *)
  ini_files : gmap string (gmap string (gmap string string)); (* existing INI files, as configparser reads them *)
  files : gmap string string;                                 (* text files *)
  dirs : gset string;                                         (* directories made by the run *)
  psycopg_imported : bool;                                    (* [import psycopg] worked *)
  server : option database;                                   (* [None]: [psycopg.connect] fails *)
  joinpath : string → string → string;                        (* [a / b] *)
  expanduser : string → string;
  is_absolute : string → bool;
  parent : string → string;
  repr : string → string;
  DEFAULT_CONFIG_PATH : string;
  DEFAULT_TEMPLATES_DIR : string
}.

Definition DEFAULT_SNIPPET_TEMPLATE_NAME : string := "snippet.html".

Definition set_files (w : world) (fs : gmap string string) : world :=
  {| environ := environ w; ini_files := ini_files w; files := fs; dirs := dirs w;
     psycopg_imported := psycopg_imported w; server := server w;
     joinpath := joinpath w; expanduser := expanduser w;
     is_absolute := is_absolute w; parent := parent w; repr := repr w;
     DEFAULT_CONFIG_PATH := DEFAULT_CONFIG_PATH w;
     DEFAULT_TEMPLATES_DIR := DEFAULT_TEMPLATES_DIR w |}.

Definition set_dirs (w : world) (ds : gset string) : world :=
  {| environ := environ w; ini_files := ini_files w; files := files w; dirs := ds;
     psycopg_imported := psycopg_imported w; server := server w;
     joinpath := joinpath w; expanduser := expanduser w;
     is_absolute := is_absolute w; parent := parent w; repr := repr w;
     DEFAULT_CONFIG_PATH := DEFAULT_CONFIG_PATH w;
     DEFAULT_TEMPLATES_DIR := DEFAULT_TEMPLATES_DIR w |}.

(** A computation that may raise and may change the world. *)
Definition M (A : Type) : Type := world → result A * world.

#[global] Instance M_ret : MRet M := λ A a w, (Ok a, w).

#[global] Instance M_bind : MBind M := λ A B k m w,
  match m w with
  | (Ok a, w') => k a w'
  | (Raise e, w') => (Raise e, w')
  end.

Definition raise {A : Type} (e : exn) : M A := λ w, (Raise e, w).

Definition lift {A : Type} (r : result A) : M A := λ w, (r, w).

Definition ask : M world := λ w, (Ok w, w).

(** [try: body except classes: handler] for a computation *)
Definition try_except_M {A : Type} (body : M A) (classes : exn → bool)
    (handler : M A) : M A := λ w,
  match body w with
  | (Ok a, w') => (Ok a, w')
  | (Raise e, w') => if classes e then handler w' else (Raise e, w')
  end.

(** [os.getenv(name)] *)
Definition getenv (name : string) : M (option string) :=
  w ← ask; mret (environ w !! name).

(** [path.exists()] *)
Definition path_exists (path : string) : M bool :=
  w ← ask;
  mret (bool_decide (is_Some (files w !! path))
        || bool_decide (is_Some (ini_files w !! path))
        || bool_decide (path ∈ dirs w)).

(** [path.read_text(encoding="utf-8")] *)
Definition read_text (path : string) : M string :=
  w ← ask;
  match files w !! path with
  | Some content => mret content
  | None => raise FileNotFoundError
  end.

(** [path.mkdir(parents=True, exist_ok=True)] *)
Definition mkdir (path : string) : M unit := λ w,
  (Ok (), set_dirs w ({[ path ]} ∪ dirs w)).

(** [path.write_text(content, encoding="utf-8")] *)
Definition write_text (path content : string) : M unit := λ w,
  (Ok (), set_files w (<[ path := content ]> (files w))).

(** [d[key]] *)
Definition getitem (d : gmap string string) (key : string) : result string :=
  match d !! key with
  | Some v => Ok v
  | None => Raise KeyError
  end.

(** ** Configuration *)

Definition CONFIG_KEYS : list string := ["host"; "port"; "dbname"; "user"; "password"].

(** The keys of [env_mapping] with the variables they are read from. *)
Definition ENV_NAMES : list (string * string) :=
  [("host", "DB_HOST"); ("port", "DB_PORT"); ("dbname", "DB_NAME");
   ("user", "DB_USER"); ("password", "DB_PASSWORD")].

(** The loop over [env_mapping.items()]. *)
Fixpoint apply_env (env_mapping : list (string * option string))
    (config_values : gmap string string) : gmap string string :=
  match env_mapping with
  | [] => config_values
  | (key, value) :: rest =>
      apply_env rest
        match value with
        | Some v => <[ key := v ]> config_values
        | None => config_values
        end
  end.

Definition load_db_config : M DBConfig :=
  w ← ask;
  let config_values : gmap string string := ∅ in
  config_file_env ← getenv "DB_CONFIG_FILE";
  let config_file :=
    match config_file_env with
    | Some (String c p) => expanduser w (String c p)
    | _ => DEFAULT_CONFIG_PATH w
    end in
  let config_values :=
    match ini_files w !! config_file with
    | Some parser =>
        match parser !! "postgresql" with
        | Some section => section ∪ config_values     (* config_values.update(section) *)
        | None => config_values
        end
    | None => config_values
    end in
  let env_mapping := map (λ '(key, name), (key, environ w !! name)) ENV_NAMES in
  let config_values := apply_env env_mapping config_values in
  let missing :=
    List.filter (λ key, negb (bool_decide (is_Some (config_values !! key)))) CONFIG_KEYS in
  match missing with
  | _ :: _ =>
      raise (GenerationError ("Missing database configuration values: "
                              +:+ Py.join ", " (merge_sort String.le missing)))
  | [] =>
      port_text ← lift (getitem config_values "port");
      port ← try_except_M (lift (Py.int (VStr port_text)))
                (λ e, match e with ValueError => true | _ => false end)
                (raise (GenerationError ("Invalid port number: " +:+ port_text)));
      host ← lift (getitem config_values "host");
      dbname ← lift (getitem config_values "dbname");
      user ← lift (getitem config_values "user");
      password ← lift (getitem config_values "password");
      mret {| host := host; port := port; dbname := dbname;
              user := user; password := password |}
  end.

(** ** The run *)

Definition connect_to_db (config : DBConfig) : M database :=
  w ← ask;
  if negb (psycopg_imported w)
  then raise (GenerationError
         "psycopg is required to connect to PostgreSQL. Install it before running the generator.")
  else match server w with
       | Some db => mret db
       | None => raise OperationalError
       end.

Definition fetch_page (cursor : database) (page_name : string) : M record :=
  w ← ask;
  match trip_page cursor page_name with
  | None => raise (GenerationError ("No trip_page entry found for " +:+ repr w page_name))
  | Some row => mret row
  end.

Definition fetch_snippets (cursor : database) (page_id : value) : M (list record) :=
  mret (trip_snippet cursor page_id).

Definition load_file (path : string) : M string :=
  try_except_M (read_text path)
    (λ e, match e with FileNotFoundError => true | _ => false end)
    (raise (GenerationError ("Required template file not found: " +:+ path))).

Definition resolve_templates_dir : M string :=
  w ← ask;
  override ← getenv "TEMPLATES_DIR";
  match override with
  | Some (String c p) => mret (String c p)
  | _ => mret (DEFAULT_TEMPLATES_DIR w)
  end.

Definition resolve_snippet_template_path (snippet_template templates_dir : string)
    : M string :=
  w ← ask;
  let candidate := snippet_template in
  candidate_exists ← path_exists candidate;
  if is_absolute w candidate || candidate_exists
  then mret candidate
  else mret (joinpath w templates_dir candidate).

Definition generate_page (page_name : string) (snippet_template_name : option string)
    (output_path : option string) : M string :=
  w ← ask;
  config ← load_db_config;
  templates_dir ← resolve_templates_dir;
  let skeleton_path := joinpath w templates_dir (page_name +:+ ".skel") in
  let snippet_template_input :=
    default DEFAULT_SNIPPET_TEMPLATE_NAME snippet_template_name in
  snippet_template_path ←
    resolve_snippet_template_path snippet_template_input templates_dir;
  skeleton ← load_file skeleton_path;
  snippet_template ← load_file snippet_template_path;
  conn ← connect_to_db config;
  page ← fetch_page conn page_name;
  match page !! "page_id" with
  | None | Some VNone =>
      raise (GenerationError "trip_page row is missing a 'page_id' column")
  | Some page_id =>
      snippets ← fetch_snippets conn page_id;
      rendered_snippets ← lift (render_snippets snippet_template snippets);
      final_content ← lift (inject_snippets skeleton rendered_snippets);
      let output := default page_name output_path in
      _ ← mkdir (parent w output);
      _ ← write_text output final_content;
      mret output
  end.



(** * The form of [gui_manager.py]

    The widgets are modelled by what the code reads from them and writes to
    them: an entry is its text and its state, a tree its items, its
    selection and its focus.  The database is a state with the operations
    the form uses, left abstract.  The dialogs that were shown are kept in
    a log.  Building the window and the event loop have no model: a
    callback is one call of its method, and the events that a change of
    the selection sends are delivered by the loop, after the method. *)

Module Gui.

Definition PAGE_FIELDS : list (string * string) :=
  [("page_id", "Page ID"); ("page_name", "Name"); ("page_desc", "Description")].

Definition SNIPPET_FIELDS : list (string * string) :=
  [("snippet_id", "Snippet ID"); ("page_id", "Page ID"); ("code", "Code");
   ("request_desc", "Request"); ("destination", "Destination"); ("image", "Image");
   ("imagetitle", "Image Title"); ("tagline1", "Tagline 1"); ("tagline2", "Tagline 2");
   ("price", "Price"); ("title", "Title"); ("shortdesc", "Short Description");
   ("description", "Description"); ("inclusionhtml", "Inclusion HTML");
   ("active", "Active")].

(** The text columns of [trip_snippet], in the order in which both SQL
    statements of [_save_snippet] list them. *)
Definition TEXT_COLUMNS : list string :=
  ["code"; "request_desc"; "destination"; "image"; "imagetitle"; "tagline1";
   "tagline2"; "price"; "title"; "shortdesc"; "description"; "inclusionhtml"].

(** An entry widget.  In the disabled state [insert] and [delete] do
    nothing. *)
Record Entry : Type := { text : string; disabled : bool }.

(** [entry.configure(state=...)] *)
Definition configure (state_disabled : bool) (e : Entry) : Entry :=
  {| text := text e; disabled := state_disabled |}.

(** [entry.delete(0, tk.END)] *)
Definition delete_all (e : Entry) : Entry :=
  if disabled e then e else {| text := ""; disabled := false |}.

(** [entry.insert(0, s)] *)
Definition insert_first (s : string) (e : Entry) : Entry :=
  if disabled e then e else {| text := s +:+ text e; disabled := false |}.

(** A tree widget: the items (identifier and values) in order, the selected
    item and the item with the focus. *)
Record Tree : Type := {
  items : list (string * list value);
  selection : option string;
  focus : option string
}.

Inductive dialog : Type :=
  | showwarning (title message : string)
  | showerror (title message : string)
  | showinfo (title message : string).

(** The four statements that the form executes, with their parameters. *)
Inductive statement : Type :=
  | InsertPage (page_id : Z) (page_name : string) (page_desc : option string)
  | UpdatePage (page_name : string) (page_desc : option string) (where_page_id : Z)
  | InsertSnippet (snippet_id page_id : Z) (texts : list (option string)) (active : Z)
  | UpdateSnippet (texts : list (option string)) (active : Z) (where_snippet_id : Z).

(** The exceptions that the form can let out of a callback. *)
Inductive gexn : Type := GKeyError | GValueError | TclError.

Inductive gresult (A : Type) : Type :=
  | Return (a : A)
  | Throw (e : gexn).
Arguments Return {A} a.
Arguments Throw {A} e.

Section App.

(** The database behind the connection.  [transact] is a statement executed
    and committed: the new state, or the text of the exception that the
    statement or the commit raised, after which the rollback leaves the
    state as it was.  The four [select]s are the four queries of the
    form. *)
Variable DB : Type.
Variable transact : statement → DB → string + DB.
Variable select_pages : DB → list (value * value * value).
Variable select_snippets : DB → Z → list (value * value * value * value).
Variable select_page : DB → Z → option record.
Variable select_snippet : DB → Z → option record.

Record App : Type := {
  page_entries : gmap string Entry;
  snippet_entries : gmap string Entry;
  current_page_id : option Z;
  current_snippet_id : option Z;
  page_tree : Tree;
  snippet_tree : Tree;
  conn : DB;
  dialogs : list dialog
}.

Definition set_page_entries (app : App) (es : gmap string Entry) : App :=
  {| page_entries := es; snippet_entries := snippet_entries app;
     current_page_id := current_page_id app;
     current_snippet_id := current_snippet_id app; page_tree := page_tree app;
     snippet_tree := snippet_tree app; conn := conn app; dialogs := dialogs app |}.

Definition set_snippet_entries (app : App) (es : gmap string Entry) : App :=
  {| page_entries := page_entries app; snippet_entries := es;
     current_page_id := current_page_id app;
     current_snippet_id := current_snippet_id app; page_tree := page_tree app;
     snippet_tree := snippet_tree app; conn := conn app; dialogs := dialogs app |}.

Definition set_current_page_id (app : App) (id : option Z) : App :=
  {| page_entries := page_entries app; snippet_entries := snippet_entries app;
     current_page_id := id;
     current_snippet_id := current_snippet_id app; page_tree := page_tree app;
     snippet_tree := snippet_tree app; conn := conn app; dialogs := dialogs app |}.

Definition set_current_snippet_id (app : App) (id : option Z) : App :=
  {| page_entries := page_entries app; snippet_entries := snippet_entries app;
     current_page_id := current_page_id app;
     current_snippet_id := id; page_tree := page_tree app;
     snippet_tree := snippet_tree app; conn := conn app; dialogs := dialogs app |}.

Definition set_page_tree (app : App) (t : Tree) : App :=
  {| page_entries := page_entries app; snippet_entries := snippet_entries app;
     current_page_id := current_page_id app;
     current_snippet_id := current_snippet_id app; page_tree := t;
     snippet_tree := snippet_tree app; conn := conn app; dialogs := dialogs app |}.

Definition set_snippet_tree (app : App) (t : Tree) : App :=
  {| page_entries := page_entries app; snippet_entries := snippet_entries app;
     current_page_id := current_page_id app;
     current_snippet_id := current_snippet_id app; page_tree := page_tree app;
     snippet_tree := t; conn := conn app; dialogs := dialogs app |}.

Definition set_conn (app : App) (db : DB) : App :=
  {| page_entries := page_entries app; snippet_entries := snippet_entries app;
     current_page_id := current_page_id app;
     current_snippet_id := current_snippet_id app; page_tree := page_tree app;
     snippet_tree := snippet_tree app; conn := db; dialogs := dialogs app |}.

(** [messagebox.show...(title, message)] *)
Definition show (d : dialog) (app : App) : App :=
  {| page_entries := page_entries app; snippet_entries := snippet_entries app;
     current_page_id := current_page_id app;
     current_snippet_id := current_snippet_id app; page_tree := page_tree app;
     snippet_tree := snippet_tree app; conn := conn app;
     dialogs := dialogs app ++ [d] |}.

(** A method of the application: it returns or raises, and leaves the
    application in a new state either way. *)
Definition G (A : Type) : Type := App → gresult A * App.

#[global] Instance G_ret : MRet G := λ A a app, (Return a, app).

#[global] Instance G_bind : MBind G := λ A B k m app,
  match m app with
  | (Return a, app') => k a app'
  | (Throw e, app') => (Throw e, app')
  end.

Definition get : G App := λ app, (Return app, app).

Definition update (f : App → App) : G unit := λ app, (Return (), f app).

Definition throw {A : Type} (e : gexn) : G A := λ app, (Throw e, app).

(** [entries[field]] *)
Definition entry_of (entries : gmap string Entry) (field : string) : G Entry :=
  match entries !! field with
  | Some e => mret e
  | None => throw GKeyError
  end.

(** [data[key]] *)
Definition data_of (data : gmap string string) (key : string) : G string :=
  match data !! key with
  | Some v => mret v
  | None => throw GKeyError
  end.

(** [for x in xs: body(x)] *)
Fixpoint for_each {A : Type} (xs : list A) (body : A → G unit) : G unit :=
  match xs with
  | [] => mret ()
  | x :: rest => _ ← body x; for_each rest body
  end.

(** [tree.insert("", tk.END, iid=iid, values=values)]: an identifier that
    is already there is refused. *)
Definition tree_insert (iid : string) (values : list value) (t : Tree)
    : gresult Tree :=
  if bool_decide (iid ∈ (items t).*1) then Throw TclError
  else Return {| items := items t ++ [(iid, values)]; selection := selection t;
                 focus := focus t |}.

(** [tree.delete( *tree.get_children())] *)
Definition tree_clear (t : Tree) : Tree :=
  {| items := []; selection := None; focus := None |}.

(** [tree.selection_set(iid)] and [tree.focus(iid)]: the item has to be
    there. *)
Definition tree_selection_set (iid : string) (t : Tree) : gresult Tree :=
  if bool_decide (iid ∈ (items t).*1)
  then Return {| items := items t; selection := Some iid; focus := focus t |}
  else Throw TclError.

Definition tree_focus (iid : string) (t : Tree) : gresult Tree :=
  if bool_decide (iid ∈ (items t).*1)
  then Return {| items := items t; selection := selection t; focus := Some iid |}
  else Throw TclError.

(** [v or ""] *)
Definition or_empty (v : value) : value := if Py.truthy v then v else VStr "".

Definition _load_pages : G unit :=
  _ ← update (λ app, set_page_tree app (tree_clear (page_tree app)));
  app ← get;
  for_each (select_pages (conn app)) (λ '(page_id, page_name, page_desc),
    app ← get;
    match tree_insert (Py.str page_id) [page_name; or_empty page_desc] (page_tree app) with
    | Return t => update (λ app, set_page_tree app t)
    | Throw e => throw e
    end).

Definition _load_snippets (page_id : Z) : G unit :=
  _ ← update (λ app, set_snippet_tree app (tree_clear (snippet_tree app)));
  app ← get;
  for_each (select_snippets (conn app) page_id) (λ '(snippet_id, code, title, active),
    app ← get;
    match tree_insert (Py.str snippet_id) [code; or_empty title; active]
            (snippet_tree app) with
    | Return t => update (λ app, set_snippet_tree app t)
    | Throw e => throw e
    end).

(** What the two [_populate] loops do to one entry: made normal, emptied,
    filled, and disabled again when it holds an identifier. *)
Definition fill (s : string) (lock : bool) (e : Entry) : Entry :=
  let e := insert_first s (delete_all (configure false e)) in
  if lock then configure true e else e.

Definition _populate_page_form (page_id : Z) : G unit :=
  app ← get;
  match select_page (conn app) page_id with
  | None => mret ()
  | Some row =>
      if bool_decide (row = ∅) then mret ()          (* if not row: return *)
      else
        for_each PAGE_FIELDS (λ '(field, _),
          app ← get;
          entry ← entry_of (page_entries app) field;
          let value :=                                (* row.get(field) or "" *)
            match row !! field with
            | Some v => if Py.truthy v then Py.str v else ""
            | None => ""
            end in
          update (λ app, set_page_entries app
                    (<[ field := fill value (bool_decide (field = "page_id")) entry ]>
                       (page_entries app))))
  end.

Definition _populate_snippet_form (snippet_id : Z) : G unit :=
  app ← get;
  match select_snippet (conn app) snippet_id with
  | None => mret ()
  | Some row =>
      if bool_decide (row = ∅) then mret ()
      else
        for_each SNIPPET_FIELDS (λ '(field, _),
          app ← get;
          entry ← entry_of (snippet_entries app) field;
          let value :=
            match row !! field with
            | None | Some VNone => ""                 (* if value is None: value = "" *)
            | Some v => Py.str v
            end in
          update (λ app, set_snippet_entries app
                    (<[ field := fill value (bool_decide (field = "snippet_id")
                                              || bool_decide (field = "page_id")) entry ]>
                       (snippet_entries app))))
  end.

Definition _clear_page_form : G unit :=
  _ ← update (λ app, set_page_entries app
                (delete_all ∘ configure false <$> page_entries app));
  update (λ app, set_current_page_id app None).

Definition _clear_snippet_form : G unit :=
  _ ← update (λ app, set_snippet_entries app
                (delete_all ∘ configure false <$> snippet_entries app));
  _ ← update (λ app, set_current_snippet_id app None);
  app ← get;
  match snippet_entries app !! "page_id" with
  | None => mret ()
  | Some page_entry =>
      let page_entry := configure false page_entry in
      let page_entry :=
        match current_page_id app with
        | Some id => insert_first (pretty id) page_entry
        | None => page_entry
        end in
      update (λ app, set_snippet_entries app
                (<[ "page_id" := configure true page_entry ]> (snippet_entries app)))
  end.

Definition _add_page : G unit := _clear_page_form.

Definition _add_snippet : G unit :=
  app ← get;
  match current_page_id app with
  | None =>
      update (show (showwarning "Select Page" "Select a page before adding snippets."))
  | Some _ => _clear_snippet_form
  end.

(** [value or None], and the inner [_normalize] of [_save_snippet] *)
Definition _normalize (value : string) : option string :=
  match value with
  | EmptyString => None
  | String _ _ => Some value
  end.

Definition select_in_page_tree (iid : string) : G unit :=
  app ← get;
  match tree_selection_set iid (page_tree app) with
  | Throw e => throw e
  | Return t =>
      _ ← update (λ app, set_page_tree app t);
      match tree_focus iid t with
      | Throw e => throw e
      | Return t => update (λ app, set_page_tree app t)
      end
  end.

Definition select_in_snippet_tree (iid : string) : G unit :=
  app ← get;
  match tree_selection_set iid (snippet_tree app) with
  | Throw e => throw e
  | Return t =>
      _ ← update (λ app, set_snippet_tree app t);
      match tree_focus iid t with
      | Throw e => throw e
      | Return t => update (λ app, set_snippet_tree app t)
      end
  end.

Definition _save_page : G unit :=
  app ← get;
  let data := (λ entry, Py.strip (text entry)) <$> page_entries app in
  page_id_text ← data_of data "page_id";
  if bool_decide (page_id_text = "")
  then update (show (showerror "Validation Error" "Page ID is required."))
  else
    page_name ← data_of data "page_name";
    if bool_decide (page_name = "")
    then update (show (showerror "Validation Error" "Page name is required."))
    else
      match Py.int_of_str page_id_text with
      | None => update (show (showerror "Validation Error" "Page ID must be an integer."))
      | Some page_id =>
          let page_desc := _normalize (default "" (data !! "page_desc")) in
          let stmt :=
            match current_page_id app with
            | None => InsertPage page_id page_name page_desc
            | Some current => UpdatePage page_name page_desc current
            end in
          match transact stmt (conn app) with
          | inl message => update (show (showerror "Database Error" message))
          | inr db =>
              _ ← update (λ app, set_conn app db);
              _ ← _load_pages;
              _ ← select_in_page_tree (pretty page_id);
              update (show (showinfo "Success" "Page saved successfully."))
          end
      end.

Definition _save_snippet : G unit :=
  app ← get;
  match current_page_id app with
  | None =>
      update (show (showwarning "Select Page" "Select a page before saving snippets."))
  | Some page_id =>
      let data := (λ entry, Py.strip (text entry)) <$> snippet_entries app in
      snippet_id_text ← data_of data "snippet_id";
      if bool_decide (snippet_id_text = "")
      then update (show (showerror "Validation Error" "Snippet ID is required."))
      else
        match Py.int_of_str snippet_id_text with
        | None =>
            update (show (showerror "Validation Error" "Snippet ID must be an integer."))
        | Some snippet_id =>
            let active_value := default "" (data !! "active") in
            match (if bool_decide (active_value = "") then Some 0
                   else Py.int_of_str active_value) with
            | None =>
                update (show (showerror "Validation Error" "Active must be an integer."))
            | Some active_int =>
                let texts :=
                  map (λ column, _normalize (default "" (data !! column))) TEXT_COLUMNS in
                let stmt :=
                  match current_snippet_id app with
                  | None => InsertSnippet snippet_id page_id texts active_int
                  | Some current => UpdateSnippet texts active_int current
                  end in
                match transact stmt (conn app) with
                | inl message => update (show (showerror "Database Error" message))
                | inr db =>
                    _ ← update (λ app, set_conn app db);
                    _ ← update (λ app, set_current_snippet_id app (Some snippet_id));
                    _ ← _load_snippets page_id;
                    _ ← select_in_snippet_tree (pretty snippet_id);
                    update (show (showinfo "Success" "Snippet saved successfully."))
                end
            end
        end
  end.

Definition _on_page_select : G unit :=
  app ← get;
  match selection (page_tree app) with
  | None => mret ()
  | Some selected =>
      match Py.int_of_str selected with
      | None => throw GValueError
      | Some page_id =>
          _ ← update (λ app, set_current_page_id app (Some page_id));
          _ ← update (λ app, set_current_snippet_id app None);
          _ ← _populate_page_form page_id;
          _ ← _load_snippets page_id;
          _clear_snippet_form
      end
  end.

Definition _on_snippet_select : G unit :=
  app ← get;
  match selection (snippet_tree app) with
  | None => mret ()
  | Some selected =>
      match Py.int_of_str selected with
      | None => throw GValueError
      | Some snippet_id =>
          _ ← update (λ app, set_current_snippet_id app (Some snippet_id));
          _populate_snippet_form snippet_id
      end
  end.

(** *** Vocabulary of the statements on the form *)

(** What is typed in a field, as the two [_save] methods read it. *)
Definition typed (entries : gmap string Entry) (field : string) : option string :=
  (λ entry, Py.strip (text entry)) <$> entries !! field.

(** The [active] flag of a form: [0] when the field is blank, the integer
    that is typed otherwise, if it is one. *)
Definition typed_active (entries : gmap string Entry) : option Z :=
  match default "" (typed entries "active") with
  | EmptyString => Some 0
  | String c s => Py.int_of_str (String c s)
  end.

(** The text columns of a form: [None] for a blank field. *)
Definition typed_texts (entries : gmap string Entry) : list (option string) :=
  map (λ column, _normalize (default "" (typed entries column))) TEXT_COLUMNS.

(** The statement that saving the snippet form executes, when the form is
    valid: a page is selected, the snippet identifier is an integer and the
    flag is blank or an integer. *)
Definition snippet_statement (app : App) : option statement :=
  page_id ← current_page_id app;
  snippet_id ← typed (snippet_entries app) "snippet_id" ≫= Py.int_of_str;
  active ← typed_active (snippet_entries app);
  Some match current_snippet_id app with
       | None => InsertSnippet snippet_id page_id (typed_texts (snippet_entries app)) active
       | Some current => UpdateSnippet (typed_texts (snippet_entries app)) active current
       end.

(** The statement that saving the page form executes, when the form is
    valid: the page identifier is an integer and the name is not blank. *)
Definition page_statement (app : App) : option statement :=
  page_id ← typed (page_entries app) "page_id" ≫= Py.int_of_str;
  page_name ← typed (page_entries app) "page_name";
  if bool_decide (page_name = "") then None
  else
    let page_desc := _normalize (default "" (typed (page_entries app) "page_desc")) in
    Some match current_page_id app with
         | None => InsertPage page_id page_name page_desc
         | Some current => UpdatePage page_name page_desc current
         end.

(** What the snippet form shows for a value of the row, and what the page
    form shows. *)
Definition shown_in_snippet_form (v : option value) : string :=
  match v with
  | None | Some VNone => ""
  | Some v => Py.str v
  end.

Definition shown_in_page_form (v : option value) : string :=
  match v with
  | Some v => if Py.truthy v then Py.str v else ""
  | None => ""
  end.

(** Two states of the application that differ at most in the trees and in
    the dialogs shown. *)
Definition same_form (app app' : App) : Prop :=
  page_entries app' = page_entries app
  ∧ snippet_entries app' = snippet_entries app
  ∧ current_page_id app' = current_page_id app
  ∧ current_snippet_id app' = current_snippet_id app
  ∧ conn app' = conn app.

End App.

Arguments page_entries {DB} _.
Arguments snippet_entries {DB} _.
Arguments current_page_id {DB} _.
Arguments current_snippet_id {DB} _.
Arguments page_tree {DB} _.
Arguments snippet_tree {DB} _.
Arguments conn {DB} _.
Arguments dialogs {DB} _.
Arguments show {DB} d app.
Arguments set_conn {DB} app db.
Arguments set_current_page_id {DB} app id.
Arguments set_current_snippet_id {DB} app id.
Arguments set_page_entries {DB} app es.
Arguments set_snippet_entries {DB} app es.
Arguments set_page_tree {DB} app t.
Arguments set_snippet_tree {DB} app t.
Arguments snippet_statement {DB} app.
Arguments page_statement {DB} app.
Arguments same_form {DB} app app'.
Arguments _save_snippet {DB} transact select_snippets _.
Arguments _save_page {DB} transact select_pages _.
Arguments _populate_page_form {DB} select_page page_id _.
Arguments _populate_snippet_form {DB} select_snippet snippet_id _.
Arguments _clear_page_form {DB} _.
Arguments _clear_snippet_form {DB} _.
Arguments _add_page {DB} _.
Arguments _add_snippet {DB} _.
Arguments _load_pages {DB} select_pages _.
Arguments _load_snippets {DB} select_snippets page_id _.
Arguments _on_page_select {DB} select_snippets select_page _.
Arguments _on_snippet_select {DB} select_snippet _.
Arguments select_in_page_tree {DB} iid _.
Arguments select_in_snippet_tree {DB} iid _.

(** The columns that a save of the snippet form writes, as a row: the text
    columns, [None] where the field was blank, and the flag. *)
Definition written_columns (texts : list (option string)) (active : Z) : record :=
  <[ "active" := VInt active ]>
    (list_to_map (zip TEXT_COLUMNS (from_option VStr VNone <$> texts))).

(** A database for the examples: the statements that were committed, in
    order.  It answers the queries from the [INSERT]s it holds and refuses
    a second [INSERT] of a page identifier. *)
Definition toy_transact (stmt : statement) (db : list statement)
    : string + list statement :=
  match stmt with
  | InsertPage page_id _ _ =>
      if existsb (λ s, match s with
                       | InsertPage id _ _ => bool_decide (id = page_id)
                       | _ => false
                       end) db
      then inl "duplicate key value violates unique constraint"
      else inr (db ++ [stmt])
  | _ => inr (db ++ [stmt])
  end.

Definition toy_select_pages (db : list statement) : list (value * value * value) :=
  omap (λ s, match s with
             | InsertPage id name desc => Some (VInt id, VStr name, from_option VStr VNone desc)
             | _ => None
             end) db.

Definition toy_select_snippets (db : list statement) (page_id : Z)
    : list (value * value * value * value) :=
  omap (λ s, match s with
             | InsertSnippet id page texts active =>
                 if bool_decide (page = page_id)
                 then Some (VInt id,
                            from_option VStr VNone (default None (texts !! 0%nat)),
                            from_option VStr VNone (default None (texts !! 8%nat)),
                            VInt active)
                 else None
             | _ => None
             end) db.

Definition toy_select_page (db : list statement) (page_id : Z) : option record :=
  head (omap (λ s, match s with
                   | InsertPage id name desc =>
                       if bool_decide (id = page_id)
                       then Some (<[ "page_id" := VInt id ]>
                                    (<[ "page_name" := VStr name ]>
                                       {[ "page_desc" := from_option VStr VNone desc ]}))
                       else None
                   | _ => None
                   end) db).

Definition toy_select_snippet (db : list statement) (snippet_id : Z) : option record :=
  head (omap (λ s, match s with
                   | InsertSnippet id page texts active =>
                       if bool_decide (id = snippet_id)
                       then Some (<[ "snippet_id" := VInt id ]>
                                    (<[ "page_id" := VInt page ]>
                                       (written_columns texts active)))
                       else None
                   | _ => None
                   end) db).

(** The fields of a form, all blank. *)
Definition blank (fields : list (string * string)) : list (string * string) :=
  (λ '(field, _), (field, "")) <$> fields.

(** A tree with one item, which is selected. *)
Definition toy_tree (iid : string) : Tree :=
  {| items := [(iid, [])]; selection := Some iid; focus := Some iid |}.

(** A form as the window is built, with some text typed in. *)
Definition toy_app (page : list (string * string)) (snippet : list (string * string))
    (current_page current_snippet : option Z) (db : list statement)
    : App (list statement) :=
  {| page_entries :=
       list_to_map ((λ '(field, s), (field, {| text := s; disabled := false |})) <$> page);
     snippet_entries :=
       list_to_map ((λ '(field, s), (field, {| text := s; disabled := false |}))
                      <$> snippet);
     current_page_id := current_page;
     current_snippet_id := current_snippet;
     page_tree := {| items := []; selection := None; focus := None |};
     snippet_tree := {| items := []; selection := None; focus := None |};
     conn := db;
     dialogs := [] |}.

(** The statements and the forms of the examples. *)
Definition toy_turkey : statement := InsertPage 7 "Turkey" (Some "Trips to Turkey").

Definition toy_home : statement := InsertPage 0 "Home" None.

Definition toy_hello : statement :=
  InsertSnippet 12 7
    [None; None; None; None; None; None; None; None; Some "Hello"; None; None; None] 1.

Definition toy_world : statement :=
  InsertSnippet 15 7
    [Some "W"; None; None; None; None; None; None; None; None; None; None; None] 0.

Definition toy_new_snippet : App (list statement) :=
  toy_app [] [("snippet_id", "12"); ("title", " Hello "); ("active", "")] (Some 7) None [].

Definition toy_new_page : App (list statement) :=
  toy_app [("page_id", "7"); ("page_name", "Turkey"); ("page_desc", "")] [] None None [].

Definition toy_listed : App (list statement) :=
  toy_app (blank PAGE_FIELDS) (blank SNIPPET_FIELDS) (Some 7) None
    [toy_home; toy_turkey; toy_hello; toy_world].

End Gui.

(** ** Vocabulary of the statements *)

(** [sub] occurs in [s]. *)
Definition substring (sub s : string) : Prop :=
  ∃ pre post, s = pre +:+ sub +:+ post.

(** No match of [try_match] starts inside [pre] when [pre] is followed by
    [s]: whatever matches first in [pre +:+ s] starts in [s]. *)
Fixpoint unmatched (try_match : string → option (string * string))
    (pre s : string) : bool :=
  match pre with
  | EmptyString => true
  | String _ pre' =>
      match try_match (pre +:+ s) with
      | Some _ => false
      | None => unmatched try_match pre' s
      end
  end.

(** Every character of [s] satisfies [p]. *)
Fixpoint all_chars (p : ascii → bool) (s : string) : bool :=
  match s with
  | EmptyString => true
  | String c s' => p c && all_chars p s'
  end.

(** No character of [s] is white space for [int()]. *)
Fixpoint no_space (s : string) : bool :=
  match s with
  | EmptyString => true
  | String c s' => negb (Py.is_space c) && no_space s'
  end.

Fixpoint all_field_chars (s : string) : bool :=
  match s with
  | EmptyString => true
  | String c s' => is_field_char c && all_field_chars s'
  end.

(** An identifier: one or more characters of the class. *)
Definition is_identifier (s : string) : bool :=
  match s with
  | EmptyString => false
  | String _ _ => all_field_chars s
  end.

(** The activity of a record as the specification words it: the key
    [active] exists, its value reads as an integer, and that integer is not
    zero. *)
Definition is_active (snippet : record) : bool :=
  match snippet !! "active" with
  | Some v => match Py.int v with Ok n => negb (n =? 0) | Raise _ => false end
  | None => false
  end.

Definition MISSING_MARKER : exn :=
  GenerationError
    "Skeleton template missing placeholder marker '--- INSERT SNIPPETS HERE ---'".

(** The configuration file of a run: the one named by [DB_CONFIG_FILE] when
    that variable is set and not empty, the default one otherwise. *)
Definition config_path (w : world) : string :=
  match environ w !! "DB_CONFIG_FILE" with
  | Some (String c p) => expanduser w (String c p)
  | _ => DEFAULT_CONFIG_PATH w
  end.

(** Its [[postgresql]] section; empty when the file or the section is not
    there. *)
Definition file_section (w : world) : gmap string string :=
  match ini_files w !! config_path w with
  | Some parser => default ∅ (parser !! "postgresql")
  | None => ∅
  end.

(** A field after the merge: the environment variable when it is set, the
    value of the file otherwise. *)
Definition merged_field (w : world) (key name : string) : option string :=
  match environ w !! name with
  | Some v => Some v
  | None => file_section w !! key
  end.

(** The names, among the given fields, of those without a value. *)
Definition names_of_missing (fields : list (string * option string)) : list string :=
  omap (λ '(key, value), match value with None => Some key | Some _ => None end) fields.

(** A world with the given environment and INI files, and nothing else. *)
Definition config_world (env : gmap string string)
    (ini : gmap string (gmap string (gmap string string))) : world :=
  {| environ := env;
     ini_files := ini;
     files := ∅;
     dirs := ∅;
     psycopg_imported := true;
     server := None;
     joinpath := λ a b, a +:+ "/" +:+ b;
     expanduser := λ p, p;
     is_absolute := Py.startswith "/";
     parent := λ _, ".";
     repr := λ s, "'" +:+ s +:+ "'";
     DEFAULT_CONFIG_PATH := "config/database.ini";
     DEFAULT_TEMPLATES_DIR := "templates" |}.

(** A complete [[postgresql]] section in the default configuration file. *)
Definition complete_ini : gmap string (gmap string (gmap string string)) :=
  {[ "config/database.ini" :=
       {[ "postgresql" := {[ "host" := "localhost"; "port" := "5432";
                             "dbname" := "trips"; "user" := "web";
                             "password" := "secret" ]} ]} ]}.

(** A run in which everything is in place but the database server: the
    five settings come from the environment, both templates exist, the
    driver is installed, and [psycopg.connect] fails. *)
Definition unreachable_world : world :=
  {| environ := {[ "DB_HOST" := "db.example"; "DB_PORT" := "5432"; "DB_NAME" := "trips";
                   "DB_USER" := "web"; "DB_PASSWORD" := "secret";
                   "TEMPLATES_DIR" := "templates" ]};
     ini_files := ∅;
     files := {[ "templates/turkey.html.skel" := "<body>--- INSERT SNIPPETS HERE ---</body>";
                 "templates/snippet.html" := "<p>%%title%%</p>" ]};
     dirs := ∅;
     psycopg_imported := true;
     server := None;
     joinpath := λ a b, a +:+ "/" +:+ b;
     expanduser := λ p, p;
     is_absolute := Py.startswith "/";
     parent := λ _, ".";
     repr := λ s, "'" +:+ s +:+ "'";
     DEFAULT_CONFIG_PATH := "config/database.ini";
     DEFAULT_TEMPLATES_DIR := "templates" |}.

(** The same run with a server that holds one page and one active snippet. *)
Definition reachable_world : world :=
  {| environ := environ unreachable_world;
     ini_files := ∅;
     files := files unreachable_world;
     dirs := ∅;
     psycopg_imported := true;
     server := Some {| trip_page := λ _, Some {[ "page_id" := VInt 7 ]};
                       trip_snippet := λ _, [ {[ "title" := VStr "Hello";
                                                 "active" := VInt 1 ]} ] |};
     joinpath := joinpath unreachable_world;
     expanduser := expanduser unreachable_world;
     is_absolute := is_absolute unreachable_world;
     parent := parent unreachable_world;
     repr := repr unreachable_world;
     DEFAULT_CONFIG_PATH := "config/database.ini";
     DEFAULT_TEMPLATES_DIR := "templates" |}.

(** The token for a field name. *)
Definition token (field : string) : string := "%%" +:+ field +:+ "%%".

(** No token starts inside [pre] when [pre] is followed by [s]. *)
Definition no_token_before (pre s : string) : bool :=
  unmatched PLACEHOLDER_PATTERN pre s.

(** [out] is [template] with its tokens replaced from the record: the
    tokens are taken from the left, each one after the end of the one
    before; a token whose identifier is a key with a value other than
    [None] becomes the string form of the value, a token whose identifier
    is no key, or a key of [None], becomes the empty string, and the text
    between the tokens is kept. *)
Inductive rendered (data : record) : string → string → Prop :=
  | rendered_plain (s : string) :
      no_token_before s "" = true → rendered data s s
  | rendered_value (pre field post out : string) (v : value) :
      is_identifier field = true →
      no_token_before pre (token field +:+ post) = true →
      data !! field = Some v → v ≠ VNone →
      rendered data post out →
      rendered data (pre +:+ token field +:+ post) (pre +:+ Py.str v +:+ out)
  | rendered_empty (pre field post out : string) :
      is_identifier field = true →
      no_token_before pre (token field +:+ post) = true →
      data !! field = None ∨ data !! field = Some VNone →
      rendered data post out →
      rendered data (pre +:+ token field +:+ post) (pre +:+ out).

(** No occurrence of the marker starts inside [pre] when [pre] is followed
    by [s]. *)
Definition no_marker_before (pre s : string) : bool :=
  unmatched (Py.replace_at PLACEHOLDER_MARKER "") pre s.

(** [out] is [s] with the occurrences of the marker replaced by [new]: the
    occurrences are taken from the left, each one after the end of the one
    before, until the rest holds none. *)
Inductive replaced_all (new : string) : string → string → Prop :=
  | replaced_done (s : string) :
      ¬ substring PLACEHOLDER_MARKER s → replaced_all new s s
  | replaced_next (pre post out : string) :
      no_marker_before pre (PLACEHOLDER_MARKER +:+ post) = true →
      replaced_all new post out →
      replaced_all new (pre +:+ PLACEHOLDER_MARKER +:+ post) (pre +:+ new +:+ out).

(** The templates directory of a run: [TEMPLATES_DIR] when it is set and
    not empty, the default one otherwise. *)
Definition templates_dir_of (w : world) : string :=
  match environ w !! "TEMPLATES_DIR" with
  | Some (String c p) => String c p
  | _ => DEFAULT_TEMPLATES_DIR w
  end.

(** The skeleton that a run reads for a page. *)
Definition skeleton_path_of (w : world) (page_name : string) : string :=
  joinpath w (templates_dir_of w) (page_name +:+ ".skel").

(** Something exists at a path. *)
Definition exists_at (w : world) (path : string) : bool :=
  bool_decide (is_Some (files w !! path))
  || bool_decide (is_Some (ini_files w !! path))
  || bool_decide (path ∈ dirs w).

(** The snippet template that a run reads: the one asked for (by default
    [snippet.html]) as it is when its path is absolute or leads to
    something, under the templates directory otherwise. *)
Definition snippet_template_path_of (w : world) (name : option string) : string :=
  let candidate := default DEFAULT_SNIPPET_TEMPLATE_NAME name in
  if is_absolute w candidate || exists_at w candidate then candidate
  else joinpath w (templates_dir_of w) candidate.


(** The same world with another database server. *)
Definition set_server (w : world) (db : option database) : world :=
  {| environ := environ w; ini_files := ini_files w; files := files w; dirs := dirs w;
     psycopg_imported := psycopg_imported w; server := db;
     joinpath := joinpath w; expanduser := expanduser w;
     is_absolute := is_absolute w; parent := parent w; repr := repr w;
     DEFAULT_CONFIG_PATH := DEFAULT_CONFIG_PATH w;
     DEFAULT_TEMPLATES_DIR := DEFAULT_TEMPLATES_DIR w |}.

(** The configuration that [unreachable_world] and [reachable_world] give. *)
Definition example_config : DBConfig :=
  {| host := "db.example"; port := 5432; dbname := "trips"; user := "web";
     password := "secret" |}.

(** A server without pages, and one whose page has no identifier. *)
Definition empty_database : database :=
  {| trip_page := λ _, None; trip_snippet := λ _, [] |}.

Definition null_id_database : database :=
  {| trip_page := λ _, Some {[ "page_id" := VNone; "page_name" := VStr "turkey.html" ]};
     trip_snippet := λ _, [] |}.


(** ** Strings *)

Lemma append_assoc (a b c : string) : (a +:+ b) +:+ c = a +:+ b +:+ c.
Proof. induction a as [|x a IH]; simpl; [done | by f_equal]. Qed.

Lemma append_nil_r (a : string) : a +:+ "" = a.
Proof. induction a as [|x a IH]; simpl; [done | by f_equal]. Qed.

Lemma length_append (a b : string) :
  String.length (a +:+ b) = (String.length a + String.length b)%nat.
Proof. induction a as [|x a IH]; simpl; [done | by f_equal]. Qed.

Lemma startswith_spec (p s : string) :
  Py.startswith p s = true ↔ ∃ rest, s = p +:+ rest.
Proof.
  revert s. induction p as [|a p IH]; intros s; simpl.
  - split; [intros _; by exists s | done].
  - destruct s as [|b s].
    + split; [done | intros [rest H]; discriminate H].
    + destruct (decide (a = b)) as [->|Hne].
      * rewrite IH. split; intros [rest H]; exists rest; [by rewrite H | congruence].
      * split; [done | intros [rest H]; congruence].
Qed.

Lemma drop_append (p rest : string) : Py.drop (String.length p) (p +:+ rest) = rest.
Proof. induction p as [|a p IH]; simpl; [by destruct rest | done]. Qed.

Lemma contains_spec (sub s : string) :
  Py.contains sub s = true ↔ substring sub s.
Proof.
  unfold substring. induction s as [|c s IH]; simpl.
  - rewrite orb_false_r, startswith_spec. split.
    + intros [rest H]. exists "", rest. done.
    + intros ([|x pre] & post & H); simpl in H; [by exists post | discriminate H].
  - rewrite orb_true_iff, IH, startswith_spec. split.
    + intros [[rest H] | (pre & post & H)].
      * exists "", rest. done.
      * exists (String c pre), post. simpl. by rewrite H.
    + intros ([|x pre] & post & H); simpl in H.
      * left. by exists post.
      * right. exists pre, post. congruence.
Qed.

(** [int()] on strings, at some inputs. *)
Example int_of_str_examples :
  map Py.int_of_str ["2"; "0"; " 12 "; "+1_000"; "-0"; "007"; "-15"]
  = [Some 2; Some 0; Some 12; Some 1000; Some 0; Some 7; Some (-15)]
  ∧ map Py.int_of_str ["yes"; ""; "+"; "2.0"; "1__0"; "_1"; "1_"; "- 2"; "1 2"; "0x10"]
    = [None; None; None; None; None; None; None; None; None; None].
Proof. split; reflexivity. Qed.

(** ** [int] and [str] agree *)

Lemma pretty_N_char_digit (x : N) :
  (x < 10)%N →
  Py.digit_value (pretty_N_char x) = Some (Z.of_N x)
  ∧ pretty_N_char x ≠ "_"%char
  ∧ pretty_N_char x ≠ "+"%char
  ∧ pretty_N_char x ≠ "-"%char
  ∧ Py.is_space (pretty_N_char x) = false.
Proof.
  intros H. rewrite <- (N2Nat.id x).
  assert (Hn : (N.to_nat x < 10)%nat) by lia.
  revert Hn. generalize (N.to_nat x). clear x H. intros n Hn.
  do 10 (destruct n as [|n]; [by repeat split|]). lia.
Qed.

Lemma more_digits_pretty (x : N) :
  ∃ k : Z, ∀ acc s,
    Py.more_digits acc false (pretty_N_go x s)
    = Py.more_digits (acc * k + Z.of_N x) false s.
Proof.
  induction (N.lt_wf_0 x) as [x _ IH].
  destruct (decide (x = 0)%N) as [->|Hx].
  { exists 1. intros acc s. rewrite pretty_N_go_0. f_equal. lia. }
  destruct (IH (x `div` 10)%N) as [k Hk]; [apply N.div_lt; lia|].
  exists (10 * k). intros acc s. rewrite pretty_N_go_step by lia. rewrite Hk.
  destruct (pretty_N_char_digit (x `mod` 10)%N) as (Hd & Hu & _);
    [apply N.mod_lt; lia|].
  cbn [Py.more_digits]. rewrite decide_False by done. rewrite Hd. f_equal.
  pose proof (N.div_mod' x 10) as E.
  assert (Z.of_N x = 10 * Z.of_N (x `div` 10) + Z.of_N (x `mod` 10)) as -> by lia.
  ring.
Qed.

Lemma pretty_N_go_head (x : N) (s : string) :
  (0 < x)%N → ∃ y t, (y < 10)%N ∧ pretty_N_go x s = String (pretty_N_char y) t.
Proof.
  revert s. induction (N.lt_wf_0 x) as [x _ IH]. intros s Hx.
  rewrite pretty_N_go_step by done.
  destruct (decide (x `div` 10 = 0)%N) as [->|Hq].
  - rewrite pretty_N_go_0. eexists _, _. split; [|done]. apply N.mod_lt. lia.
  - apply IH; [apply N.div_lt; lia | by apply N.neq_0_lt_0].
Qed.

Lemma rstrip_no_space (s : string) :
  no_space s = true →
  Py.rstrip s = s.
Proof.
  induction s as [|c s IH]; [done|]. intros [Hc Hs]%andb_true_iff.
  cbn [Py.rstrip]. rewrite IH by done. apply negb_true_iff in Hc. rewrite Hc.
  by destruct s.
Qed.

Lemma pretty_N_go_no_space (x : N) (s : string) :
  no_space s = true → no_space (pretty_N_go x s) = true.
Proof.
  revert s. induction (N.lt_wf_0 x) as [x _ IH]. intros s Hs.
  destruct (decide (x = 0)%N) as [->|Hx]; [by rewrite pretty_N_go_0|].
  rewrite pretty_N_go_step by lia. apply IH; [apply N.div_lt; lia|].
  destruct (pretty_N_char_digit (x `mod` 10)%N) as (_ & _ & _ & _ & Hsp);
    [apply N.mod_lt; lia|].
  cbn [no_space]. by rewrite Hsp.
Qed.

Lemma int_of_str_pretty_pos (p : positive) :
  ∃ c t, pretty_N_go (Npos p) "" = String c t
         ∧ c ≠ "+"%char ∧ c ≠ "-"%char
         ∧ Py.lstrip (String c t) = String c t
         ∧ Py.rstrip (String c t) = String c t
         ∧ Py.parse_digits (String c t) = Some (Zpos p).
Proof.
  destruct (pretty_N_go_head (Npos p) "") as (y & t & Hy & E); [lia|].
  destruct (pretty_N_char_digit y Hy) as (Hd & Hu & Hplus & Hminus & Hsp).
  exists (pretty_N_char y), t. split; [done|]. split; [done|]. split; [done|].
  split; [by cbn [Py.lstrip]; rewrite Hsp|].
  split; [rewrite <- E; apply rstrip_no_space; by apply pretty_N_go_no_space|].
  destruct (more_digits_pretty (Npos p)) as [k Hk].
  specialize (Hk 0 ""). rewrite E in Hk. cbn [Py.more_digits] in Hk.
  rewrite decide_False, Hd in Hk by done.
  cbn [Py.parse_digits]. rewrite Hd.
  replace (10 * 0 + Z.of_N y) with (Z.of_N y) in Hk by lia.
  rewrite Hk. f_equal.
Qed.

(** [int(str(z))] is [z]: an integer and its decimal string read the same. *)
Lemma int_str (z : Z) : Py.int (VStr (Py.str (VInt z))) = Ok z.
Proof.
  unfold Py.int, Py.str. destruct z as [|p|p].
  - reflexivity.
  - destruct (int_of_str_pretty_pos p) as (c & t & E & Hp & Hm & Hl & Hr & Hv).
    unfold pretty, pretty_Z, pretty, pretty_positive, pretty, pretty_N.
    rewrite decide_False by done. rewrite E.
    unfold Py.int_of_str. rewrite Hl, Hr.
    rewrite !decide_False by done. by rewrite Hv.
  - destruct (int_of_str_pretty_pos p) as (c & t & E & Hp & Hm & Hl & Hr & Hv).
    unfold pretty, pretty_Z, pretty, pretty_positive, pretty, pretty_N.
    rewrite decide_False by done. rewrite E.
    unfold Py.int_of_str.
    change ("-" +:+ String c t) with (String "-" (String c t)).
    change (Py.lstrip (String "-" (String c t))) with (String "-" (String c t)).
    assert (Py.rstrip (String "-" (String c t)) = String "-" (String c t)) as ->.
    { change (Py.rstrip (String "-" (String c t)))
        with (match Py.rstrip (String c t) with
              | EmptyString => if Py.is_space "-" then EmptyString else String "-" ""
              | r => String "-" r
              end).
      by rewrite Hr. }
    rewrite decide_False by done. rewrite decide_True by done.
    by rewrite Hv.
Qed.

(** A flag given as an integer and the same flag given as its decimal
    string are active together. *)
Lemma is_active_int_str (snippet : record) (z : Z) :
  is_active (<[ "active" := VStr (Py.str (VInt z)) ]> snippet)
  = is_active (<[ "active" := VInt z ]> snippet).
Proof. unfold is_active. by rewrite !lookup_insert_eq, int_str. Qed.
(** ** The scan *)

Section ScanFacts.
Variable try_match : string → option (string * string).
Hypothesis try_match_consumes : ∀ s out rest,
  try_match s = Some (out, rest) → (String.length rest < String.length s)%nat.

Lemma scan_fuel_enough (n : nat) (s : string) :
  (String.length s ≤ n)%nat →
  Py.scan_fuel try_match n s = Py.scan_fuel try_match (String.length s) s.
Proof.
  revert s. induction n as [n IH] using lt_wf_ind. intros s Hn.
  destruct n as [|n].
  { destruct s; simpl in *; [done | lia]. }
  destruct s as [|c s]; simpl.
  - destruct (try_match "") as [[out rest]|] eqn:E; [|done].
    apply try_match_consumes in E. simpl in E. lia.
  - simpl in Hn. destruct (try_match (String c s)) as [[out rest]|] eqn:E.
    + apply try_match_consumes in E. simpl in E.
      rewrite (IH n) by lia. by rewrite (IH (String.length s)) by lia.
    + rewrite (IH n) by lia. done.
Qed.

(** One step of the scan, free of fuel. *)
Lemma scan_step (s : string) :
  Py.scan try_match s =
    match try_match s with
    | Some (out, rest) => out +:+ Py.scan try_match rest
    | None =>
        match s with
        | EmptyString => EmptyString
        | String c s' => String c (Py.scan try_match s')
        end
    end.
Proof.
  unfold Py.scan. destruct s as [|c s]; simpl.
  - destruct (try_match "") as [[out rest]|] eqn:E; [|done].
    apply try_match_consumes in E. simpl in E. lia.
  - destruct (try_match (String c s)) as [[out rest]|] eqn:E; [|done].
    apply try_match_consumes in E. simpl in E.
    by rewrite scan_fuel_enough by lia.
Qed.

Lemma scan_unmatched (pre s : string) :
  unmatched try_match pre s = true →
  Py.scan try_match (pre +:+ s) = pre +:+ Py.scan try_match s.
Proof.
  induction pre as [|c pre IH]; simpl; [done|]. intros H.
  rewrite scan_step. simpl.
  destruct (try_match (String c (pre +:+ s))); [done|]. by rewrite IH.
Qed.

Lemma scan_no_match (s : string) :
  unmatched try_match s "" = true → Py.scan try_match s = s.
Proof.
  intros H. rewrite <- (append_nil_r s) at 1.
  rewrite scan_unmatched by done. rewrite scan_step.
  destruct (try_match "") as [[out rest]|] eqn:E; [|apply append_nil_r].
  apply try_match_consumes in E. simpl in E. lia.
Qed.
End ScanFacts.

(** ** The placeholder pattern *)

Lemma span_append (p : ascii → bool) (s a b : string) :
  span p s = (a, b) → s = a +:+ b.
Proof.
  revert a b. induction s as [|c s IH]; simpl; intros a b H.
  - by inversion H.
  - destruct (p c); [|by inversion H].
    destruct (span p s) as [a' b'] eqn:E. inversion H; subst.
    simpl. f_equal. by apply IH.
Qed.

Lemma span_all (p : ascii → bool) (s a b : string) :
  span p s = (a, b) →
  (fix all (t : string) : bool :=
     match t with EmptyString => true | String c t' => p c && all t' end) a = true.
Proof.
  revert a b. induction s as [|c s IH]; simpl; intros a b H.
  - by inversion H.
  - destruct (p c) eqn:Hc; [|by inversion H].
    destruct (span p s) as [a' b'] eqn:E. inversion H; subst.
    rewrite Hc. simpl. by eapply IH.
Qed.

Lemma span_field (field rest : string) :
  all_field_chars field = true →
  span is_field_char (field +:+ String "%" rest) = (field, String "%" rest).
Proof.
  induction field as [|c field IH]; simpl; [done|].
  intros [Hc Hf]%andb_true_iff. rewrite Hc. by rewrite IH.
Qed.

Lemma PLACEHOLDER_PATTERN_token (field rest : string) :
  is_identifier field = true →
  PLACEHOLDER_PATTERN (token field +:+ rest) = Some (field, rest).
Proof.
  intros H. unfold token, PLACEHOLDER_PATTERN. rewrite !append_assoc. simpl.
  destruct field as [|c field]; [done|].
  simpl in H. by rewrite (span_field (String c field) (String "%" rest)).
Qed.

(** The matcher finds exactly the strings that start with a token. *)
Lemma PLACEHOLDER_PATTERN_spec (s field rest : string) :
  PLACEHOLDER_PATTERN s = Some (field, rest) ↔
  is_identifier field = true ∧ s = token field +:+ rest.
Proof.
  split; [|intros [H ->]; by apply PLACEHOLDER_PATTERN_token].
  unfold PLACEHOLDER_PATTERN.
  destruct (Py.startswith "%%" s) eqn:Hs; [|done].
  apply startswith_spec in Hs as [r ->].
  change (Py.drop 2 ("%%" +:+ r)) with r.
  destruct (span is_field_char r) as [a b] eqn:E.
  pose proof (span_append _ _ _ _ E) as ->.
  pose proof (span_all _ _ _ _ E) as Ha.
  destruct a as [|c a]; [done|].
  destruct (Py.startswith "%%" b) eqn:Hb; [|done].
  apply startswith_spec in Hb as [r' ->].
  change (Py.drop 2 ("%%" +:+ r')) with r'.
  intros H; inversion H; subst. split; [exact Ha|].
  unfold token. by rewrite !append_assoc.
Qed.

Lemma PLACEHOLDER_PATTERN_consumes (s field rest : string) :
  PLACEHOLDER_PATTERN s = Some (field, rest) →
  (String.length rest < String.length s)%nat.
Proof.
  intros [_ ->]%PLACEHOLDER_PATTERN_spec. unfold token.
  rewrite !length_append. simpl. lia.
Qed.

(** ** [render_snippet] *)

Lemma placeholder_sub_consumes (data : record) (s out rest : string) :
  placeholder_sub data s = Some (out, rest) →
  (String.length rest < String.length s)%nat.
Proof.
  unfold placeholder_sub.
  destruct (PLACEHOLDER_PATTERN s) as [[field rest']|] eqn:E; [|done].
  intros H. inversion H; subst. by eapply PLACEHOLDER_PATTERN_consumes.
Qed.

Lemma unmatched_placeholder_sub (data : record) (pre s : string) :
  unmatched (placeholder_sub data) pre s = no_token_before pre s.
Proof.
  unfold no_token_before.
  induction pre as [|c pre IH]; simpl; [done|]. unfold placeholder_sub at 1.
  destruct (PLACEHOLDER_PATTERN (String c (pre +:+ s))) as [[??]|]; done.
Qed.

(** The first token of a template: the text before it is copied, the token
    is replaced by what the callback returns for its field, and rendering
    goes on after the token. *)
Lemma render_snippet_first_token (data : record) (pre field post : string) :
  is_identifier field = true →
  no_token_before pre (token field +:+ post) = true →
  render_snippet (pre +:+ token field +:+ post) data
  = pre +:+ replace_field data field +:+ render_snippet post data.
Proof.
  intros Hf Hpre. unfold render_snippet.
  rewrite (scan_unmatched _ (placeholder_sub_consumes data))
    by by rewrite unmatched_placeholder_sub.
  f_equal. rewrite (scan_step _ (placeholder_sub_consumes data)).
  unfold placeholder_sub at 1. by rewrite PLACEHOLDER_PATTERN_token.
Qed.

Lemma render_snippet_no_token (data : record) (template : string) :
  no_token_before template "" = true → render_snippet template data = template.
Proof.
  intros H. unfold render_snippet.
  apply (scan_no_match _ (placeholder_sub_consumes data)).
  by rewrite unmatched_placeholder_sub.
Qed.

(** A template in which a token starts has a first token. *)
Lemma first_token (s : string) :
  no_token_before s "" = false →
  ∃ pre field post,
    s = pre +:+ token field +:+ post
    ∧ is_identifier field = true
    ∧ no_token_before pre (token field +:+ post) = true.
Proof.
  unfold no_token_before. induction s as [|c s IH]; [done|].
  cbn [unmatched]. rewrite append_nil_r.
  destruct (PLACEHOLDER_PATTERN (String c s)) as [[field rest]|] eqn:E.
  - intros _. apply PLACEHOLDER_PATTERN_spec in E as [Hf E].
    exists "", field, rest. done.
  - intros H. destruct (IH H) as (pre & field & post & -> & Hf & Hpre).
    exists (String c pre), field, post. split; [done|]. split; [done|].
    cbn [unmatched].
    change (String c pre +:+ token field +:+ post)
      with (String c (pre +:+ token field +:+ post)).
    by rewrite E.
Qed.

Lemma render_snippet_rendered (data : record) (template : string) :
  rendered data template (render_snippet template data).
Proof.
  remember (String.length template) as n eqn:Hn. revert template Hn.
  induction n as [n IH] using lt_wf_ind. intros template ->.
  destruct (no_token_before template "") eqn:E.
  - rewrite render_snippet_no_token by done. by constructor.
  - destruct (first_token template E) as (pre & field & post & -> & Hf & Hpre).
    rewrite render_snippet_first_token by done.
    assert (Hpost : rendered data post (render_snippet post data)).
    { eapply IH; [|done]. unfold token. rewrite !length_append. simpl. lia. }
    unfold replace_field. destruct (data !! field) as [v|] eqn:Hv.
    + destruct v as [|z|t].
      * apply rendered_empty; auto.
      * by eapply rendered_value.
      * by eapply rendered_value.
    + apply rendered_empty; auto.
Qed.

(** The first token is where it is. *)
Lemma first_token_unique (pre1 field1 post1 pre2 field2 post2 : string) :
  pre1 +:+ token field1 +:+ post1 = pre2 +:+ token field2 +:+ post2 →
  is_identifier field1 = true → is_identifier field2 = true →
  no_token_before pre1 (token field1 +:+ post1) = true →
  no_token_before pre2 (token field2 +:+ post2) = true →
  pre1 = pre2 ∧ field1 = field2 ∧ post1 = post2.
Proof.
  assert (Hhere : ∀ c p field post field' post',
            String c (p +:+ token field +:+ post) = token field' +:+ post' →
            is_identifier field' = true →
            no_token_before (String c p) (token field +:+ post) = true → False).
  { intros c p field post field' post' Heq Hf'. unfold no_token_before.
    cbn [unmatched].
    change (String c p +:+ token field +:+ post)
      with (String c (p +:+ token field +:+ post)).
    by rewrite Heq, PLACEHOLDER_PATTERN_token. }
  revert pre2. induction pre1 as [|c pre1 IH]; intros [|c' pre2] Heq Hf1 Hf2 H1 H2.
  - split; [done|].
    assert (E : PLACEHOLDER_PATTERN (token field1 +:+ post1)
                = PLACEHOLDER_PATTERN (token field2 +:+ post2)) by by f_equal.
    rewrite !PLACEHOLDER_PATTERN_token in E by done. by injection E.
  - exfalso. by eapply (Hhere c' pre2).
  - exfalso. by eapply (Hhere c pre1).
  - change (String c (pre1 +:+ token field1 +:+ post1)
            = String c' (pre2 +:+ token field2 +:+ post2)) in Heq.
    injection Heq as -> Heq.
    unfold no_token_before in H1, H2. cbn [unmatched] in H1, H2.
    destruct (PLACEHOLDER_PATTERN (String c' pre1 +:+ _)); [done|].
    destruct (PLACEHOLDER_PATTERN (String c' pre2 +:+ _)); [done|].
    destruct (IH pre2 Heq Hf1 Hf2 H1 H2) as (-> & -> & ->). done.
Qed.

Lemma token_not_plain (pre field post : string) :
  is_identifier field = true →
  no_token_before (pre +:+ token field +:+ post) "" = false.
Proof.
  intros Hf. unfold no_token_before. induction pre as [|c pre IH].
  - change ("" +:+ token field +:+ post) with (token field +:+ post).
    assert (E : PLACEHOLDER_PATTERN ((token field +:+ post) +:+ "") = Some (field, post))
      by by rewrite append_nil_r, PLACEHOLDER_PATTERN_token.
    unfold token in *. destruct field; [done|]. cbn [String.append unmatched] in *.
    by rewrite E.
  - change (String c pre +:+ token field +:+ post)
      with (String c (pre +:+ token field +:+ post)).
    cbn [unmatched]. rewrite IH. by destruct (PLACEHOLDER_PATTERN _).
Qed.

(** [rendered] names one result. *)
Lemma rendered_functional (data : record) (s out1 out2 : string) :
  rendered data s out1 → rendered data s out2 → out1 = out2.
Proof.
  intros H1. revert out2.
  induction H1 as [s Hs | pre field post out v Hf Hpre Hv Hne H1 IH
                  | pre field post out Hf Hpre Hv H1 IH]; intros out2 H2.
  - inversion H2 as [| pre' field' post' out' v' Hf' Hpre' Hv' Hne' H' Heq
                     | pre' field' post' out' Hf' Hpre' Hv' H' Heq]; [done|..]; subst;
      by rewrite token_not_plain in Hs.
  - inversion H2 as [s' Hs'
                     | pre' field' post' out' v' Hf' Hpre' Hv' Hne' H' Heq
                     | pre' field' post' out' Hf' Hpre' Hv' H' Heq]; subst.
    + by rewrite token_not_plain in Hs'.
    + destruct (first_token_unique _ _ _ _ _ _ Heq Hf' Hf Hpre' Hpre) as (-> & -> & ->).
      rewrite (IH _ H'). congruence.
    + destruct (first_token_unique _ _ _ _ _ _ Heq Hf' Hf Hpre' Hpre) as (-> & -> & ->).
      destruct Hv'; congruence.
  - inversion H2 as [s' Hs'
                     | pre' field' post' out' v' Hf' Hpre' Hv' Hne' H' Heq
                     | pre' field' post' out' Hf' Hpre' Hv' H' Heq]; subst.
    + by rewrite token_not_plain in Hs'.
    + destruct (first_token_unique _ _ _ _ _ _ Heq Hf' Hf Hpre' Hpre) as (-> & -> & ->).
      destruct Hv; congruence.
    + destruct (first_token_unique _ _ _ _ _ _ Heq Hf' Hf Hpre' Hpre) as (-> & -> & ->).
      by rewrite (IH _ H').
Qed.

(** ** Claims on rendering *)

(** C1: for every template and every record, [render_snippet] replaces
    each token [%%identifier%%], taken from the left, by [str(v)] when the
    identifier is a key of the record with a value [v] other than [None],
    and by the empty string when the key is absent or its value is [None],
    and keeps the text between the tokens.  In particular a template that
    is one token renders to [str(v)], or to the empty string. *)
Theorem render_snippet_replaces_token (data : record) (template : string) :
  rendered data template (render_snippet template data)
  ∧ ∀ field, is_identifier field = true →
      (∀ v, data !! field = Some v → v ≠ VNone →
         render_snippet (token field) data = Py.str v)
      ∧ (data !! field = None ∨ data !! field = Some VNone →
         render_snippet (token field) data = "").
Proof.
  split; [apply render_snippet_rendered|]. intros field Hf.
  assert (Hone : render_snippet (token field) data = replace_field data field).
  { pose proof (render_snippet_first_token data "" field "" Hf eq_refl) as H.
    change ("" +:+ token field +:+ "") with (token field +:+ "") in H.
    rewrite append_nil_r in H. rewrite H.
    rewrite (render_snippet_no_token data "") by done. apply append_nil_r. }
  rewrite Hone. unfold replace_field. split.
  - intros v -> Hv. by destruct v.
  - by intros [-> | ->].
Qed.

Lemma render_snippet_replaces_token_witness :
  render_snippet "%%title%%" {[ "title" := VStr "Hello" ]} = "Hello"
  ∧ render_snippet "%%n%%" {[ "n" := VInt (-42) ]} = "-42"
  ∧ render_snippet "%%subtitle%%" {[ "subtitle" := VNone ]} = ""
  ∧ render_snippet "%%subtitle%%" {[ "title" := VStr "Hello" ]} = "".
Proof.
  assert (Hs : VStr "Hello" ≠ VNone) by discriminate.
  assert (Hn : VInt (-42) ≠ VNone) by discriminate.
  split; [|split; [|split]].
  - exact (proj1 (proj2 (render_snippet_replaces_token {[ "title" := VStr "Hello" ]} "")
                    "title" eq_refl) (VStr "Hello") eq_refl Hs).
  - exact (proj1 (proj2 (render_snippet_replaces_token {[ "n" := VInt (-42) ]} "")
                    "n" eq_refl) (VInt (-42)) eq_refl Hn).
  - exact (proj2 (proj2 (render_snippet_replaces_token {[ "subtitle" := VNone ]} "")
                    "subtitle" eq_refl) (or_intror eq_refl)).
  - exact (proj2 (proj2 (render_snippet_replaces_token {[ "title" := VStr "Hello" ]} "")
                    "subtitle" eq_refl) (or_introl eq_refl)).
Defined.

(** C6: rendering is one left-to-right pass.  A template in which no token
    starts is returned unchanged; the text before a token is copied; and a
    string value put in place of a token is copied as it is, whatever it
    contains: a token inside a value stays in the output. *)
Theorem render_snippet_single_pass (data : record) :
  (∀ template, no_token_before template "" = true →
     render_snippet template data = template) ∧
  (∀ pre field post text,
     is_identifier field = true →
     no_token_before pre (token field +:+ post) = true →
     data !! field = Some (VStr text) →
     render_snippet (pre +:+ token field +:+ post) data
       = pre +:+ text +:+ render_snippet post data) ∧
  render_snippet "%%a%% and %%b%%" {[ "a" := VStr "%%b%%"; "b" := VStr "X" ]}
    = "%%b%% and X".
Proof.
  split; [|split].
  - intros template. apply render_snippet_no_token.
  - intros pre field post text Hf Hpre Hv.
    rewrite render_snippet_first_token by done.
    unfold replace_field. by rewrite Hv.
  - reflexivity.
Qed.

Lemma render_snippet_single_pass_witness :
  render_snippet "<b>100%</b>" {[ "k" := VStr "%%k%%" ]} = "<b>100%</b>"
  ∧ render_snippet "<b>%%k%%</b>" {[ "k" := VStr "%%k%%" ]} = "<b>%%k%%</b>".
Proof.
  pose proof (render_snippet_single_pass {[ "k" := VStr "%%k%%" ]}) as (H1 & H2 & _).
  split.
  - exact (H1 "<b>100%</b>" eq_refl).
  - exact (H2 "<b>" "k" "</b>" "%%k%%" eq_refl eq_refl eq_refl).
Defined.

(** ** Claims on the activity flag and on aggregation *)

Lemma _is_snippet_active_is_active (snippet : record) :
  _is_snippet_active snippet = Ok (is_active snippet).
Proof.
  unfold _is_snippet_active, is_active.
  destruct (snippet !! "active") as [v|]; [|done].
  destruct v as [|z|s]; simpl; [done..|].
  by destruct (Py.int_of_str s).
Qed.

(** C2: the activity check returns without raising, and its answer is
    [True] exactly when the key [active] exists and [int()] of its value is
    an integer other than zero.  [1] and ["2"] are active; [0], ["0"], a
    record without the key, [None] and ["yes"] are not. *)
Theorem _is_snippet_active_iff (snippet : record) :
  (∃ b, _is_snippet_active snippet = Ok b ∧
        (b = true ↔ ∃ v n, snippet !! "active" = Some v ∧ Py.int v = Ok n ∧ n ≠ 0)) ∧
  _is_snippet_active {[ "active" := VInt 1 ]} = Ok true ∧
  _is_snippet_active {[ "active" := VStr "2" ]} = Ok true ∧
  _is_snippet_active {[ "active" := VInt 0 ]} = Ok false ∧
  _is_snippet_active {[ "active" := VStr "0" ]} = Ok false ∧
  _is_snippet_active {[ "title" := VStr "Fifth" ]} = Ok false ∧
  _is_snippet_active {[ "active" := VNone ]} = Ok false ∧
  _is_snippet_active {[ "active" := VStr "yes" ]} = Ok false.
Proof.
  split; [|by repeat split].
  exists (is_active snippet). split; [apply _is_snippet_active_is_active|].
  unfold is_active. destruct (snippet !! "active") as [v|].
  - destruct (Py.int v) as [n|e] eqn:E.
    + rewrite negb_true_iff, Z.eqb_neq. split.
      * intros Hn. by exists v, n.
      * intros (v' & n' & Hv & Hi & Hn). congruence.
    + split; [done|]. intros (v' & n' & Hv & Hi & Hn). congruence.
  - split; [done|]. by intros (v' & n' & Hv & _).
Qed.

(** The loop of [render_snippets]: the renderings of the active records are
    appended in order, the others are counted. *)
Lemma render_loop_spec (template : string) (snippets : list record)
    (rendered : list string) (skipped : nat) :
  render_loop template snippets rendered skipped
  = Ok (rendered ++ map (λ r, render_snippet template r) (List.filter is_active snippets),
        (skipped + length (List.filter (λ r, negb (is_active r)) snippets))%nat).
Proof.
  revert rendered skipped.
  induction snippets as [|r snippets IH]; intros rendered skipped; simpl.
  - by rewrite app_nil_r, Nat.add_0_r.
  - rewrite _is_snippet_active_is_active. simpl.
    destruct (is_active r); simpl; rewrite IH.
    + by rewrite <- app_assoc.
    + do 2 f_equal. lia.
Qed.

Lemma render_snippets_spec (template : string) (snippets : list record) :
  render_snippets template snippets
  = Ok (Py.join (String "010" "")
          (map (λ r, render_snippet template r) (List.filter is_active snippets))).
Proof. unfold render_snippets. by rewrite render_loop_spec. Qed.


(** ** [inject_snippets] *)

#[local] Arguments PLACEHOLDER_MARKER : simpl never.

Lemma replace_marker_scan (new s : string) :
  Py.replace s PLACEHOLDER_MARKER new
  = Py.scan (Py.replace_at PLACEHOLDER_MARKER new) s.
Proof. reflexivity. Qed.

Lemma replace_at_consumes (new s out rest : string) :
  Py.replace_at PLACEHOLDER_MARKER new s = Some (out, rest) →
  (String.length rest < String.length s)%nat.
Proof.
  unfold Py.replace_at.
  destruct (Py.startswith PLACEHOLDER_MARKER s) eqn:E; [|done].
  apply startswith_spec in E as [r ->]. intros [= <- <-].
  rewrite length_append.
  change (String.length PLACEHOLDER_MARKER) with 28%nat. lia.
Qed.

Lemma unmatched_replace_at (new pre s : string) :
  unmatched (Py.replace_at PLACEHOLDER_MARKER new) pre s = no_marker_before pre s.
Proof.
  unfold no_marker_before.
  induction pre as [|c pre IH]; simpl; [done|]. unfold Py.replace_at at 1 3.
  by destruct (Py.startswith PLACEHOLDER_MARKER (String c (pre +:+ s))).
Qed.

Lemma replace_marker_first (new pre post : string) :
  no_marker_before pre (PLACEHOLDER_MARKER +:+ post) = true →
  Py.replace (pre +:+ PLACEHOLDER_MARKER +:+ post) PLACEHOLDER_MARKER new
  = pre +:+ new +:+ Py.replace post PLACEHOLDER_MARKER new.
Proof.
  intros Hpre. rewrite !replace_marker_scan.
  rewrite (scan_unmatched _ (replace_at_consumes new))
    by by rewrite unmatched_replace_at.
  f_equal. rewrite (scan_step _ (replace_at_consumes new)).
  unfold Py.replace_at at 1.
  assert (Py.startswith PLACEHOLDER_MARKER (PLACEHOLDER_MARKER +:+ post) = true) as ->
    by (apply startswith_spec; by exists post).
  by rewrite drop_append.
Qed.

Lemma no_marker_before_all (s : string) :
  Py.contains PLACEHOLDER_MARKER s = false → no_marker_before s "" = true.
Proof.
  unfold no_marker_before. induction s as [|c s IH]; [done|].
  intros H. cbn [Py.contains] in H. apply orb_false_iff in H as [H1 H2].
  cbn [unmatched]. rewrite append_nil_r. unfold Py.replace_at at 1.
  rewrite H1. by apply IH.
Qed.

Lemma replace_marker_none (new s : string) :
  Py.contains PLACEHOLDER_MARKER s = false →
  Py.replace s PLACEHOLDER_MARKER new = s.
Proof.
  intros H. rewrite replace_marker_scan.
  apply (scan_no_match _ (replace_at_consumes new)).
  rewrite unmatched_replace_at. by apply no_marker_before_all.
Qed.

(** Where the marker occurs, it has a first occurrence. *)
Lemma first_marker (s : string) :
  Py.contains PLACEHOLDER_MARKER s = true →
  ∃ pre post, s = pre +:+ PLACEHOLDER_MARKER +:+ post
              ∧ no_marker_before pre (PLACEHOLDER_MARKER +:+ post) = true.
Proof.
  induction s as [|c s IH]; intros H; cbn [Py.contains] in H.
  - rewrite orb_false_r in H. apply startswith_spec in H as [rest H].
    exists "", rest. done.
  - destruct (Py.startswith PLACEHOLDER_MARKER (String c s)) eqn:E.
    + apply startswith_spec in E as [rest E]. exists "", rest. done.
    + simpl in H. destruct (IH H) as (pre & post & -> & Hpre).
      exists (String c pre), post. split; [done|].
      unfold no_marker_before. cbn [unmatched]. unfold Py.replace_at at 1.
      change (String c pre +:+ PLACEHOLDER_MARKER +:+ post)
        with (String c (pre +:+ PLACEHOLDER_MARKER +:+ post)).
      by rewrite E.
Qed.

Lemma replace_marker_replaced_all (new s : string) :
  replaced_all new s (Py.replace s PLACEHOLDER_MARKER new).
Proof.
  remember (String.length s) as n eqn:Hn. revert s Hn.
  induction n as [n IH] using lt_wf_ind. intros s ->.
  destruct (Py.contains PLACEHOLDER_MARKER s) eqn:E.
  - destruct (first_marker s E) as (pre & post & -> & Hpre).
    rewrite replace_marker_first by done. constructor; [done|].
    eapply IH; [|done]. rewrite !length_append.
    change (String.length PLACEHOLDER_MARKER) with 28%nat. lia.
  - rewrite replace_marker_none by done. constructor.
    rewrite <- contains_spec. by rewrite E.
Qed.

(** The first occurrence of the marker is where it is. *)
Lemma first_marker_unique (pre1 post1 pre2 post2 : string) :
  pre1 +:+ PLACEHOLDER_MARKER +:+ post1 = pre2 +:+ PLACEHOLDER_MARKER +:+ post2 →
  no_marker_before pre1 (PLACEHOLDER_MARKER +:+ post1) = true →
  no_marker_before pre2 (PLACEHOLDER_MARKER +:+ post2) = true →
  pre1 = pre2 ∧ post1 = post2.
Proof.
  assert (Hhere : ∀ c p post post',
            String c (p +:+ PLACEHOLDER_MARKER +:+ post) = PLACEHOLDER_MARKER +:+ post' →
            no_marker_before (String c p) (PLACEHOLDER_MARKER +:+ post) = true → False).
  { intros c p post post' Heq. unfold no_marker_before. cbn [unmatched].
    unfold Py.replace_at at 1.
    change (String c p +:+ PLACEHOLDER_MARKER +:+ post)
      with (String c (p +:+ PLACEHOLDER_MARKER +:+ post)).
    rewrite Heq.
    assert (Py.startswith PLACEHOLDER_MARKER (PLACEHOLDER_MARKER +:+ post') = true) as ->
      by (apply startswith_spec; by exists post').
    done. }
  revert pre2. induction pre1 as [|c pre1 IH]; intros [|c' pre2] Heq H1 H2.
  - split; [done|]. by apply (inj (String.append PLACEHOLDER_MARKER)).
  - exfalso. by eapply Hhere.
  - exfalso. by eapply Hhere.
  - change (String c (pre1 +:+ PLACEHOLDER_MARKER +:+ post1)
            = String c' (pre2 +:+ PLACEHOLDER_MARKER +:+ post2)) in Heq.
    injection Heq as -> Heq.
    unfold no_marker_before in H1, H2. cbn [unmatched] in H1, H2.
    destruct (Py.replace_at _ _ (String c' pre1 +:+ _)); [done|].
    destruct (Py.replace_at _ _ (String c' pre2 +:+ _)); [done|].
    destruct (IH pre2 Heq H1 H2) as [-> ->]. done.
Qed.

(** [replaced_all] names one result. *)
Lemma replaced_all_functional (new s out1 out2 : string) :
  replaced_all new s out1 → replaced_all new s out2 → out1 = out2.
Proof.
  intros H1. revert out2.
  induction H1 as [s Hs | pre post out Hpre H1 IH]; intros out2 H2.
  - inversion H2 as [|pre' post' out' Hpre' H' Heq]; [done|]; subst.
    destruct Hs. by exists pre', post'.
  - inversion H2 as [s' Hs' | pre' post' out' Hpre' H' Heq]; subst.
    + destruct Hs'. by exists pre, post.
    + destruct (first_marker_unique _ _ _ _ Heq Hpre' Hpre) as [-> ->].
      by rewrite (IH _ H').
Qed.

(** Two markers that share their dashes: the scan replaces the first and
    goes on after it, where what is left of the second is no marker. *)
Lemma inject_snippets_overlapping_markers :
  inject_snippets "--- INSERT SNIPPETS HERE --- INSERT SNIPPETS HERE ---" "X"
  = Ok "X INSERT SNIPPETS HERE ---".
Proof. reflexivity. Qed.

(** ** Claims on the page assembly *)

(** C4: [inject_snippets] raises the missing-marker [GenerationError]
    exactly when the skeleton does not contain the marker, whatever the
    rendered snippets are; it raises nothing else. *)
Theorem inject_snippets_missing_marker (skeleton rendered_snippets : string) :
  (inject_snippets skeleton rendered_snippets = Raise MISSING_MARKER
   ↔ ¬ substring PLACEHOLDER_MARKER skeleton)
  ∧ (∀ e, inject_snippets skeleton rendered_snippets = Raise e → e = MISSING_MARKER)
  ∧ inject_snippets "<section></section>" "content" = Raise MISSING_MARKER.
Proof.
  split; [|split; [|reflexivity]];
    unfold inject_snippets; rewrite <- ?contains_spec;
    destruct (Py.contains PLACEHOLDER_MARKER skeleton); simpl.
  - split; [done | by intros []].
  - done.
  - done.
  - by intros e [= <-].
Qed.

(** C5: on a skeleton that contains the marker, [inject_snippets] returns
    the skeleton with every occurrence of the marker replaced by the
    rendered snippets, the occurrences being taken one after the other from
    the left, as [str.replace] takes them. *)
Theorem inject_snippets_replaces_all (skeleton rendered_snippets : string) :
  substring PLACEHOLDER_MARKER skeleton →
  (∃ out, inject_snippets skeleton rendered_snippets = Ok out
          ∧ replaced_all rendered_snippets skeleton out)
  ∧ inject_snippets "<a>--- INSERT SNIPPETS HERE ---</a>" "<p>Hello</p>"
    = Ok "<a><p>Hello</p></a>".
Proof.
  intros H%contains_spec. split; [|reflexivity].
  exists (Py.replace skeleton PLACEHOLDER_MARKER rendered_snippets).
  unfold inject_snippets. rewrite H. split; [done|].
  apply replace_marker_replaced_all.
Qed.

Lemma inject_snippets_replaces_all_witness :
  ∃ out, inject_snippets "<i>--- INSERT SNIPPETS HERE ---</i>--- INSERT SNIPPETS HERE ---" "X"
         = Ok out
         ∧ replaced_all "X"
             "<i>--- INSERT SNIPPETS HERE ---</i>--- INSERT SNIPPETS HERE ---" out.
Proof.
  assert (H : substring PLACEHOLDER_MARKER
                "<i>--- INSERT SNIPPETS HERE ---</i>--- INSERT SNIPPETS HERE ---").
  { exists "<i>", "</i>--- INSERT SNIPPETS HERE ---". reflexivity. }
  exact (proj1 (inject_snippets_replaces_all _ "X" H)).
Defined.

(** C9: the replacement is one pass over the skeleton.  The rendered
    snippets are put in place of the first marker as they are and the scan
    goes on in the skeleton after that marker, so a marker inside the
    rendered snippets is not replaced and the result still contains it. *)
Theorem inject_snippets_single_pass (skeleton rendered_snippets : string) :
  substring PLACEHOLDER_MARKER skeleton →
  (∃ pre post,
     skeleton = pre +:+ PLACEHOLDER_MARKER +:+ post
     ∧ no_marker_before pre (PLACEHOLDER_MARKER +:+ post) = true
     ∧ inject_snippets skeleton rendered_snippets
       = Ok (pre +:+ rendered_snippets
                 +:+ Py.replace post PLACEHOLDER_MARKER rendered_snippets))
  ∧ (substring PLACEHOLDER_MARKER rendered_snippets →
     ∃ out, inject_snippets skeleton rendered_snippets = Ok out
            ∧ substring rendered_snippets out
            ∧ substring PLACEHOLDER_MARKER out)
  ∧ inject_snippets "<a>--- INSERT SNIPPETS HERE ---</a>" "[--- INSERT SNIPPETS HERE ---]"
    = Ok "<a>[--- INSERT SNIPPETS HERE ---]</a>".
Proof.
  intros H%contains_spec.
  destruct (first_marker skeleton H) as (pre & post & Hs & Hpre).
  assert (Hout : inject_snippets skeleton rendered_snippets
                 = Ok (pre +:+ rendered_snippets
                           +:+ Py.replace post PLACEHOLDER_MARKER rendered_snippets)).
  { unfold inject_snippets. rewrite H. cbn [negb]. subst skeleton.
    by rewrite replace_marker_first. }
  split; [by exists pre, post|]. split; [|reflexivity].
  intros (a & b & Hr). eexists. split; [exact Hout|]. split.
  - by eexists pre, _.
  - exists (pre +:+ a),
      (b +:+ Py.replace post PLACEHOLDER_MARKER rendered_snippets).
    rewrite Hr at 1. by rewrite !append_assoc.
Qed.

Lemma inject_snippets_single_pass_witness :
  ∃ out, inject_snippets PLACEHOLDER_MARKER PLACEHOLDER_MARKER = Ok out
         ∧ substring PLACEHOLDER_MARKER out
         ∧ substring PLACEHOLDER_MARKER out.
Proof.
  assert (H : substring PLACEHOLDER_MARKER PLACEHOLDER_MARKER).
  { exists "", "". reflexivity. }
  exact (proj1 (proj2 (inject_snippets_single_pass _ PLACEHOLDER_MARKER H)) H).
Defined.

(** ** Claim on the rendering pipeline *)



(** ** [load_db_config] *)

Lemma apply_env_lookup (w : world) (key name : string) :
  (key, name) ∈ ENV_NAMES →
  apply_env (map (λ '(key, name), (key, environ w !! name)) ENV_NAMES)
    (file_section w) !! key
  = merged_field w key name.
Proof.
  unfold ENV_NAMES, merged_field. intros H. simpl.
  repeat (apply elem_of_cons in H as [[= -> ->] | H]; [
    destruct (environ w !! "DB_HOST"), (environ w !! "DB_PORT"),
      (environ w !! "DB_NAME"), (environ w !! "DB_USER"),
      (environ w !! "DB_PASSWORD"); by simplify_map_eq |]).
  by apply elem_of_nil in H.
Qed.

Lemma bind_ask {A : Type} (k : world → M A) (w : world) : (ask ≫= k) w = k w w.
Proof. reflexivity. Qed.

Lemma bind_getenv {A : Type} (name : string) (k : option string → M A) (w : world) :
  (getenv name ≫= k) w = k (environ w !! name) w.
Proof. reflexivity. Qed.

Lemma bind_lift {A B : Type} (r : result A) (k : A → M B) (w : world) :
  (lift r ≫= k) w = match r with Ok a => k a w | Raise e => (Raise e, w) end.
Proof. by destruct r. Qed.

(** The three outcomes of [load_db_config], by the fields after the merge. *)
Lemma load_db_config_cases (w : world) :
  let h := merged_field w "host" "DB_HOST" in
  let p := merged_field w "port" "DB_PORT" in
  let d := merged_field w "dbname" "DB_NAME" in
  let u := merged_field w "user" "DB_USER" in
  let pw := merged_field w "password" "DB_PASSWORD" in
  match h, p, d, u, pw with
  | Some h, Some p, Some d, Some u, Some pw =>
      match Py.int_of_str p with
      | Some n =>
          load_db_config w
          = (Ok {| host := h; port := n; dbname := d; user := u; password := pw |}, w)
      | None =>
          load_db_config w
          = (Raise (GenerationError ("Invalid port number: " +:+ p)), w)
      end
  | _, _, _, _, _ =>
      load_db_config w
      = (Raise (GenerationError
                  ("Missing database configuration values: "
                   +:+ Py.join ", "
                         (names_of_missing [("dbname", d); ("host", h);
                                            ("password", pw); ("port", p);
                                            ("user", u)]))), w)
  end.
Proof.
  unfold load_db_config. rewrite bind_ask, bind_getenv.
  assert (Hfs : match ini_files w !! match environ w !! "DB_CONFIG_FILE" with
                                     | Some (String c p) => expanduser w (String c p)
                                     | _ => DEFAULT_CONFIG_PATH w
                                     end with
                | Some parser =>
                    match parser !! "postgresql" with
                    | Some section => section ∪ ∅
                    | None => ∅
                    end
                | None => ∅
                end = file_section w).
  { unfold file_section, config_path.
    destruct (ini_files w !! _) as [parser|]; [|done].
    destruct (parser !! "postgresql"); [apply (right_id_L ∅ (∪)) | done]. }
  rewrite !Hfs. clear Hfs. cbv zeta.
  set (cv := apply_env _ _).
  assert (Hh : cv !! "host" = merged_field w "host" "DB_HOST")
    by (apply apply_env_lookup; set_solver).
  assert (Hp : cv !! "port" = merged_field w "port" "DB_PORT")
    by (apply apply_env_lookup; set_solver).
  assert (Hd : cv !! "dbname" = merged_field w "dbname" "DB_NAME")
    by (apply apply_env_lookup; set_solver).
  assert (Hu : cv !! "user" = merged_field w "user" "DB_USER")
    by (apply apply_env_lookup; set_solver).
  assert (Hpw : cv !! "password" = merged_field w "password" "DB_PASSWORD")
    by (apply apply_env_lookup; set_solver).
  clearbody cv. cbn [List.filter CONFIG_KEYS]. unfold getitem.
  rewrite Hh, Hp, Hd, Hu, Hpw.
  destruct (merged_field w "host" "DB_HOST") as [h|],
    (merged_field w "port" "DB_PORT") as [p|],
    (merged_field w "dbname" "DB_NAME") as [d|],
    (merged_field w "user" "DB_USER") as [u|],
    (merged_field w "password" "DB_PASSWORD") as [pw|];
    try reflexivity.
  destruct (Py.int_of_str p) as [n|] eqn:E;
    cbv -[Py.int_of_str String.append]; by rewrite E.
Qed.

(** ** Claim on configuration *)

(** C7: the [[postgresql]] section of the file is read first and the
    environment variables are applied over it, so that a variable that is
    set wins over the file.  When one of the five fields has no value after
    that, the loader raises the [GenerationError] that names the missing
    fields; when the five are there, it raises the [GenerationError] on the
    invalid port if the port does not read as an integer, and otherwise
    returns the five fields, the port as an integer.  The world is left as
    it was. *)
Theorem load_db_config_merge (w : world) :
  let h := merged_field w "host" "DB_HOST" in
  let p := merged_field w "port" "DB_PORT" in
  let d := merged_field w "dbname" "DB_NAME" in
  let u := merged_field w "user" "DB_USER" in
  let pw := merged_field w "password" "DB_PASSWORD" in
  let missing :=
    names_of_missing [("dbname", d); ("host", h); ("password", pw); ("port", p);
                      ("user", u)] in
  (∀ key name v, environ w !! name = Some v → merged_field w key name = Some v)
  ∧ (∀ key name, environ w !! name = None →
       merged_field w key name = file_section w !! key)
  ∧ (missing ≠ [] →
       load_db_config w
       = (Raise (GenerationError ("Missing database configuration values: "
                                  +:+ Py.join ", " missing)), w))
  ∧ (∀ hv pv dv uv pwv,
       h = Some hv → p = Some pv → d = Some dv → u = Some uv → pw = Some pwv →
       match Py.int_of_str pv with
       | None =>
           load_db_config w
           = (Raise (GenerationError ("Invalid port number: " +:+ pv)), w)
       | Some n =>
           load_db_config w
           = (Ok {| host := hv; port := n; dbname := dv; user := uv;
                    password := pwv |}, w)
       end).
Proof.
  cbv zeta. pose proof (load_db_config_cases w) as H. cbv zeta in H.
  split; [|split; [|split]].
  - intros key name v Hv. unfold merged_field. by rewrite Hv.
  - intros key name Hv. unfold merged_field. by rewrite Hv.
  - destruct (merged_field w "host" "DB_HOST"), (merged_field w "port" "DB_PORT"),
      (merged_field w "dbname" "DB_NAME"), (merged_field w "user" "DB_USER"),
      (merged_field w "password" "DB_PASSWORD"); try (intros _; exact H).
    by intros [].
  - intros hv pv dv uv pwv Hh Hp Hd Hu Hpw.
    rewrite Hh, Hp, Hd, Hu, Hpw in H. exact H.
Qed.

Lemma load_db_config_merge_witness :
  (load_db_config (config_world {[ "DB_PORT" := "6543" ]} complete_ini)).1
  = Ok {| host := "localhost"; port := 6543; dbname := "trips"; user := "web";
          password := "secret" |}
  ∧ (load_db_config (config_world {[ "DB_PORT" := "54x32" ]} complete_ini)).1
    = Raise (GenerationError "Invalid port number: 54x32")
  ∧ (load_db_config (config_world {[ "DB_HOST" := "db"; "DB_PORT" := "5432" ]} ∅)).1
    = Raise (GenerationError
               "Missing database configuration values: dbname, password, user").
Proof.
  split; [|split].
  - pose proof (load_db_config_merge
                  (config_world {[ "DB_PORT" := "6543" ]} complete_ini)) as (_ & _ & _ & H).
    exact (f_equal fst (H "localhost" "6543" "trips" "web" "secret"
                          eq_refl eq_refl eq_refl eq_refl eq_refl)).
  - pose proof (load_db_config_merge
                  (config_world {[ "DB_PORT" := "54x32" ]} complete_ini)) as (_ & _ & _ & H).
    exact (f_equal fst (H "localhost" "54x32" "trips" "web" "secret"
                          eq_refl eq_refl eq_refl eq_refl eq_refl)).
  - pose proof (load_db_config_merge
                  (config_world {[ "DB_HOST" := "db"; "DB_PORT" := "5432" ]} ∅))
      as (_ & _ & H & _).
    assert (Hne : names_of_missing
                    [("dbname", None); ("host", Some "db"); ("password", None);
                     ("port", Some "5432"); ("user", None)] ≠ ([] : list string))
      by discriminate.
    exact (f_equal fst (H Hne)).
Defined.

(** ** [generate_page] *)

Lemma bind_unfold {A B : Type} (m : M A) (k : A → M B) (w : world) :
  (m ≫= k) w = match m w with
                | (Ok a, w') => k a w'
                | (Raise e, w') => (Raise e, w')
                end.
Proof. reflexivity. Qed.

Lemma load_db_config_outcome (w w' : world) (r : result DBConfig) :
  load_db_config w = (r, w') →
  w' = w ∧ ∀ e, r = Raise e → ∃ msg, e = GenerationError msg.
Proof.
  pose proof (load_db_config_cases w) as H. cbv zeta in H.
  destruct (merged_field w "host" "DB_HOST"), (merged_field w "port" "DB_PORT") as [p|],
    (merged_field w "dbname" "DB_NAME"), (merged_field w "user" "DB_USER"),
    (merged_field w "password" "DB_PASSWORD");
    try destruct (Py.int_of_str p);
    rewrite H; intros [= <- <-]; (split; [done|]); intros e [= <-]; eauto.
Qed.

Lemma load_file_outcome (path : string) (w w' : world) (r : result string) :
  load_file path w = (r, w') →
  w' = w ∧ ∀ e, r = Raise e → ∃ msg, e = GenerationError msg.
Proof.
  unfold load_file, try_except_M, read_text. rewrite bind_ask.
  destruct (files w !! path); intros [= <- <-]; (split; [done|]);
    intros e [= <-]; eauto.
Qed.

Lemma resolve_templates_dir_ok (w : world) :
  ∃ templates_dir, resolve_templates_dir w = (Ok templates_dir, w).
Proof.
  unfold resolve_templates_dir. rewrite bind_ask, bind_getenv.
  destruct (environ w !! "TEMPLATES_DIR") as [[|c p]|]; by eexists.
Qed.

Lemma resolve_snippet_template_path_ok (snippet_template templates_dir : string)
    (w : world) :
  ∃ path, resolve_snippet_template_path snippet_template templates_dir w = (Ok path, w).
Proof.
  unfold resolve_snippet_template_path, path_exists.
  rewrite bind_ask, bind_unfold, bind_ask. cbn [mret M_ret].
  destruct (is_absolute w snippet_template || _); by eexists.
Qed.

Lemma connect_to_db_outcome (config : DBConfig) (w w' : world) (r : result database) :
  connect_to_db config w = (r, w') →
  w' = w ∧ ∀ e, r = Raise e →
    (∃ msg, e = GenerationError msg)
    ∨ (e = OperationalError ∧ psycopg_imported w = true ∧ server w = None).
Proof.
  unfold connect_to_db. rewrite bind_ask.
  destruct (psycopg_imported w) eqn:Hi; cbn [negb];
    [destruct (server w) eqn:Hs|];
    intros [= <- <-]; (split; [done|]); intros e [= <-]; eauto.
Qed.

Lemma fetch_page_outcome (cursor : database) (page_name : string) (w w' : world)
    (r : result record) :
  fetch_page cursor page_name w = (r, w') →
  w' = w ∧ ∀ e, r = Raise e → ∃ msg, e = GenerationError msg.
Proof.
  unfold fetch_page. rewrite bind_ask.
  destruct (trip_page cursor page_name);
    intros [= <- <-]; (split; [done|]); intros e [= <-]; eauto.
Qed.


(** A run that succeeds writes one file: the skeleton with the rendered
    snippets in it, at the output path. *)
Lemma generate_page_success (page_name : string)
    (snippet_template_name output_path : option string) (w w' : world) (out : string) :
  generate_page page_name snippet_template_name output_path w = (Ok out, w') →
  out = default page_name output_path
  ∧ ∃ content, files w' = <[ out := content ]> (files w)
               ∧ ∃ skeleton rendered, inject_snippets skeleton rendered = Ok content.
Proof.
  unfold generate_page. rewrite bind_ask, bind_unfold.
  destruct (load_db_config w) as [[config|e0] w0] eqn:Hc;
    apply load_db_config_outcome in Hc as [-> Hc]; [|done].
  rewrite bind_unfold.
  destruct (resolve_templates_dir_ok w) as [templates_dir ->].
  rewrite bind_unfold.
  destruct (resolve_snippet_template_path_ok
              (default DEFAULT_SNIPPET_TEMPLATE_NAME snippet_template_name)
              templates_dir w) as [path ->].
  rewrite bind_unfold.
  destruct (load_file _ w) as [[skeleton|e0] w0] eqn:Hf;
    apply load_file_outcome in Hf as [-> Hf]; [|done].
  rewrite bind_unfold.
  destruct (load_file path w) as [[snippet_template|e0] w0] eqn:Hf';
    apply load_file_outcome in Hf' as [-> Hf']; [|done].
  rewrite bind_unfold.
  destruct (connect_to_db config w) as [[conn|e0] w0] eqn:Hdb;
    apply connect_to_db_outcome in Hdb as [-> Hdb]; [|done].
  rewrite bind_unfold.
  destruct (fetch_page conn page_name w) as [[page|e0] w0] eqn:Hpg;
    apply fetch_page_outcome in Hpg as [-> Hpg]; [|done].
  clear Hc Hf Hf' Hdb Hpg.
  assert (Hrest : ∀ page_id,
    (fetch_snippets conn page_id
     ≫= λ snippets,
          lift (render_snippets snippet_template snippets)
          ≫= λ rendered_snippets,
               lift (inject_snippets skeleton rendered_snippets)
               ≫= λ final_content,
                    mkdir (parent w (default page_name output_path))
                    ≫= λ _, write_text (default page_name output_path) final_content
                         ≫= λ _, mret (default page_name output_path)) w
    = (Ok out, w') →
    out = default page_name output_path
    ∧ ∃ content, files w' = <[ out := content ]> (files w)
                 ∧ ∃ skeleton rendered, inject_snippets skeleton rendered = Ok content).
  { intros page_id. rewrite bind_unfold. unfold fetch_snippets. cbn [mret M_ret].
    rewrite bind_lift, render_snippets_spec, bind_lift.
    destruct (inject_snippets skeleton _) as [content|] eqn:Hi; [|done].
    intros [= <- <-]. split; [done|]. exists content. split; [done|]. eauto. }
  destruct (page !! "page_id") as [[|z|t]|]; [done | apply Hrest.. | done].
Qed.

(** ** Claim on the run *)

(** C8, at a run whose database server cannot be reached: every earlier
    step succeeds, [generate_page] raises the driver's [OperationalError],
    which is not a [GenerationError], and the world is left untouched. *)
Theorem generate_page_connection_failure :
  generate_page "turkey.html" None None unreachable_world
  = (Raise OperationalError, unreachable_world)
  ∧ (∀ msg, OperationalError ≠ GenerationError msg)
  ∧ (generate_page "turkey.html" None None reachable_world).1 = Ok "turkey.html"
  ∧ files (generate_page "turkey.html" None None reachable_world).2 !! "turkey.html"
    = Some "<body><p>Hello</p></body>".
Proof.
  split; [|split; [|split]].
  - vm_compute. reflexivity.
  - discriminate.
  - vm_compute. reflexivity.
  - vm_compute. reflexivity.
Qed.

(** ** The tests of the repository, on the model

    (the attribute value of the skeleton is quoted with single quotes) *)

Example test_render_snippet_replaces_placeholders :
  render_snippet "<h1>%%title%%</h1>" {[ "title" := VStr "Hello" ]} = "<h1>Hello</h1>"
  ∧ render_snippet "<p>%%title%% %%subtitle%%</p>"
      {[ "title" := VStr "Hello"; "subtitle" := VStr "World" ]} = "<p>Hello World</p>"
  ∧ render_snippet "<p>%%title%% %%subtitle%%</p>"
      {[ "title" := VStr "Hello"; "subtitle" := VNone ]} = "<p>Hello </p>".
Proof. repeat split; reflexivity. Qed.

Example test_render_snippets_concatenates_results :
  render_snippets "<p>%%title%%</p>"
    [ {[ "title" := VStr "First"; "active" := VInt 1 ]};
      {[ "title" := VStr "Second"; "active" := VInt 2 ]} ]
  = Ok ("<p>First</p>" +:+ String "010" "<p>Second</p>").
Proof. reflexivity. Qed.

Example test_render_snippets_skips_inactive_snippets :
  render_snippets "<p>%%title%%</p>"
    [ {[ "title" := VStr "First"; "active" := VInt 0 ]};
      {[ "title" := VStr "Second"; "active" := VInt 1 ]};
      {[ "title" := VStr "Third"; "active" := VStr "0" ]};
      {[ "title" := VStr "Fourth"; "active" := VStr "2" ]};
      {[ "title" := VStr "Fifth" ]} ]
  = Ok ("<p>Second</p>" +:+ String "010" "<p>Fourth</p>").
Proof. reflexivity. Qed.

Example test_inject_snippets_replaces_marker :
  inject_snippets "<section name='data_placeholder'>--- INSERT SNIPPETS HERE ---</section>"
    "<p>Hello</p>"
  = Ok "<section name='data_placeholder'><p>Hello</p></section>".
Proof. reflexivity. Qed.

(** ** More on [generate_page] *)

Lemma resolve_templates_dir_eq (w : world) :
  resolve_templates_dir w = (Ok (templates_dir_of w), w).
Proof.
  unfold resolve_templates_dir, templates_dir_of. rewrite bind_ask, bind_getenv.
  by destruct (environ w !! "TEMPLATES_DIR") as [[|c p]|].
Qed.

Lemma resolve_snippet_template_path_eq (name : option string) (w : world) :
  resolve_snippet_template_path (default DEFAULT_SNIPPET_TEMPLATE_NAME name)
    (templates_dir_of w) w
  = (Ok (snippet_template_path_of w name), w).
Proof.
  unfold resolve_snippet_template_path, snippet_template_path_of, path_exists, exists_at.
  rewrite bind_ask, bind_unfold, bind_ask. cbn [mret M_ret].
  by destruct (is_absolute w _ || _).
Qed.

Lemma load_file_eq (path : string) (w : world) :
  load_file path w
  = match files w !! path with
    | Some content => (Ok content, w)
    | None => (Raise (GenerationError ("Required template file not found: " +:+ path)), w)
    end.
Proof.
  unfold load_file, try_except_M, read_text. rewrite bind_ask.
  by destruct (files w !! path).
Qed.

(** The run up to the two templates. *)
Lemma generate_page_templates (page_name : string)
    (snippet_template_name output_path : option string) (w : world) (config : DBConfig) :
  load_db_config w = (Ok config, w) →
  generate_page page_name snippet_template_name output_path w
  = match files w !! skeleton_path_of w page_name with
    | None =>
        (Raise (GenerationError ("Required template file not found: "
                                 +:+ skeleton_path_of w page_name)), w)
    | Some skeleton =>
        match files w !! snippet_template_path_of w snippet_template_name with
        | None =>
            (Raise (GenerationError
                      ("Required template file not found: "
                       +:+ snippet_template_path_of w snippet_template_name)), w)
        | Some snippet_template =>
            (conn ← connect_to_db config;
             page ← fetch_page conn page_name;
             match page !! "page_id" with
             | None | Some VNone =>
                 raise (GenerationError "trip_page row is missing a 'page_id' column")
             | Some page_id =>
                 snippets ← fetch_snippets conn page_id;
                 rendered_snippets ← lift (render_snippets snippet_template snippets);
                 final_content ← lift (inject_snippets skeleton rendered_snippets);
                 let output := default page_name output_path in
                 _ ← mkdir (parent w output);
                 _ ← write_text output final_content;
                 mret output
             end) w
        end
    end.
Proof.
  intros Hc. unfold generate_page. rewrite bind_ask, bind_unfold, Hc.
  rewrite bind_unfold, resolve_templates_dir_eq.
  rewrite bind_unfold, resolve_snippet_template_path_eq.
  rewrite bind_unfold, load_file_eq. fold (skeleton_path_of w page_name).
  destruct (files w !! skeleton_path_of w page_name) as [skeleton|]; [|done].
  rewrite bind_unfold, load_file_eq.
  by destruct (files w !! snippet_template_path_of w snippet_template_name).
Qed.





(** X3: the configuration is loaded first: when [load_db_config] raises, the
    run raises the same exception, whatever the templates and the database
    are, and changes nothing. *)
Theorem generate_page_config_error_first (page_name : string)
    (snippet_template_name output_path : option string) (w : world) (e : exn) :
  (load_db_config w).1 = Raise e →
  generate_page page_name snippet_template_name output_path w = (Raise e, w).
Proof.
  destruct (load_db_config w) as [r w'] eqn:Hc. simpl. intros ->.
  apply load_db_config_outcome in Hc as Hw. destruct Hw as [-> _].
  unfold generate_page. by rewrite bind_ask, bind_unfold, Hc.
Qed.

Lemma generate_page_config_error_first_witness :
  generate_page "turkey.html" None None (config_world ∅ ∅)
  = (Raise (GenerationError
              "Missing database configuration values: dbname, host, password, port, user"),
     config_world ∅ ∅).
Proof.
  exact (generate_page_config_error_first "turkey.html" None None (config_world ∅ ∅)
           _ eq_refl).
Defined.

(** X4: the templates are read before the database is contacted: with a
    complete configuration, a missing skeleton makes the run raise the
    [GenerationError] that names the skeleton's path, and a missing snippet
    template (the skeleton being there) the one that names the template's
    path, whether the server can be reached or not; nothing is written. *)
Theorem generate_page_missing_template (page_name : string)
    (snippet_template_name output_path : option string) (w : world) (config : DBConfig) :
  load_db_config w = (Ok config, w) →
  (files w !! skeleton_path_of w page_name = None →
   generate_page page_name snippet_template_name output_path w
   = (Raise (GenerationError ("Required template file not found: "
                              +:+ skeleton_path_of w page_name)), w))
  ∧ (is_Some (files w !! skeleton_path_of w page_name) →
     files w !! snippet_template_path_of w snippet_template_name = None →
     generate_page page_name snippet_template_name output_path w
     = (Raise (GenerationError
                 ("Required template file not found: "
                  +:+ snippet_template_path_of w snippet_template_name)), w)).
Proof.
  intros Hc. rewrite (generate_page_templates _ _ _ _ _ Hc). split.
  - by intros ->.
  - by intros [skeleton ->] ->.
Qed.

Lemma generate_page_missing_template_witness :
  generate_page "turkey.html" None None (set_files unreachable_world ∅)
  = (Raise (GenerationError
              "Required template file not found: templates/turkey.html.skel"),
     set_files unreachable_world ∅).
Proof.
  exact (proj1 (generate_page_missing_template "turkey.html" None None
                  (set_files unreachable_world ∅)
                  {| host := "db.example"; port := 5432; dbname := "trips";
                     user := "web"; password := "secret" |} eq_refl) eq_refl).
Defined.

(** X5: with the configuration and the templates in place and a server
    that answers, a page name without a row makes the run raise the
    [GenerationError] on the missing page, and a row whose [page_id] is
    absent or [None] the one on the missing identifier; this comes before
    the skeleton is looked at, and nothing is written. *)
Theorem generate_page_page_errors (page_name : string)
    (snippet_template_name output_path : option string) (w : world)
    (config : DBConfig) (db : database) :
  load_db_config w = (Ok config, w) →
  is_Some (files w !! skeleton_path_of w page_name) →
  is_Some (files w !! snippet_template_path_of w snippet_template_name) →
  psycopg_imported w = true →
  server w = Some db →
  (trip_page db page_name = None →
   generate_page page_name snippet_template_name output_path w
   = (Raise (GenerationError ("No trip_page entry found for " +:+ repr w page_name)), w))
  ∧ (∀ page, trip_page db page_name = Some page →
       page !! "page_id" = None ∨ page !! "page_id" = Some VNone →
       generate_page page_name snippet_template_name output_path w
       = (Raise (GenerationError "trip_page row is missing a 'page_id' column"), w)).
Proof.
  intros Hc [skeleton Hsk] [snippet_template Hst] Hi Hs.
  rewrite (generate_page_templates _ _ _ _ _ Hc), Hsk, Hst.
  rewrite bind_unfold. unfold connect_to_db. rewrite bind_ask, Hi, Hs. cbn [negb mret M_ret].
  rewrite bind_unfold. unfold fetch_page. rewrite bind_ask. split.
  - by intros ->.
  - intros page Hp Hid. rewrite Hp. cbn [mret M_ret].
    by destruct Hid as [-> | ->].
Qed.

(** X6: the marker is looked for last: when everything else is in place and
    the skeleton does not contain the marker, the run raises the
    missing-marker error after the page and its snippets were fetched, and
    writes nothing. *)
Theorem generate_page_missing_marker (page_name : string)
    (snippet_template_name output_path : option string) (w : world)
    (config : DBConfig) (db : database) (page : record) (page_id : value)
    (skeleton snippet_template : string) :
  load_db_config w = (Ok config, w) →
  files w !! skeleton_path_of w page_name = Some skeleton →
  files w !! snippet_template_path_of w snippet_template_name = Some snippet_template →
  psycopg_imported w = true →
  server w = Some db →
  trip_page db page_name = Some page →
  page !! "page_id" = Some page_id →
  page_id ≠ VNone →
  ¬ substring PLACEHOLDER_MARKER skeleton →
  generate_page page_name snippet_template_name output_path w
  = (Raise MISSING_MARKER, w).
Proof.
  intros Hc Hsk Hst Hi Hs Hpage Hid Hne Hm. rewrite <- contains_spec in Hm.
  apply not_true_is_false in Hm.
  rewrite (generate_page_templates _ _ _ _ _ Hc), Hsk, Hst.
  rewrite bind_unfold. unfold connect_to_db. rewrite bind_ask, Hi, Hs. cbn [negb mret M_ret].
  rewrite bind_unfold. unfold fetch_page. rewrite bind_ask, Hpage. cbn [mret M_ret].
  rewrite Hid.
  assert (Hrun : ∀ id,
    (snippets ← fetch_snippets db id;
     rendered_snippets ← lift (render_snippets snippet_template snippets);
     final_content ← lift (inject_snippets skeleton rendered_snippets);
     let output := default page_name output_path in
     _ ← mkdir (parent w output);
     _ ← write_text output final_content;
     mret output) w
    = (Raise MISSING_MARKER, w)).
  { intros id. rewrite bind_unfold. unfold fetch_snippets. cbn [mret M_ret].
    rewrite bind_lift, render_snippets_spec, bind_lift.
    unfold inject_snippets. rewrite Hm. reflexivity. }
  destruct page_id; [done | apply Hrun..].
Qed.

Lemma generate_page_page_errors_witness :
  generate_page "turkey.html" None None (set_server reachable_world (Some empty_database))
  = (Raise (GenerationError "No trip_page entry found for 'turkey.html'"),
     set_server reachable_world (Some empty_database))
  ∧ generate_page "turkey.html" None None
      (set_server reachable_world (Some null_id_database))
    = (Raise (GenerationError "trip_page row is missing a 'page_id' column"),
       set_server reachable_world (Some null_id_database)).
Proof.
  split.
  - exact (proj1 (generate_page_page_errors "turkey.html" None None
                    (set_server reachable_world (Some empty_database))
                    example_config empty_database eq_refl
                    (mk_is_Some _ _ eq_refl) (mk_is_Some _ _ eq_refl) eq_refl eq_refl)
             eq_refl).
  - exact (proj2 (generate_page_page_errors "turkey.html" None None
                    (set_server reachable_world (Some null_id_database))
                    example_config null_id_database eq_refl
                    (mk_is_Some _ _ eq_refl) (mk_is_Some _ _ eq_refl) eq_refl eq_refl)
             _ eq_refl (or_intror eq_refl)).
Defined.

Lemma generate_page_missing_marker_witness :
  generate_page "turkey.html" None None
    (set_files reachable_world
       {[ "templates/turkey.html.skel" := "<body></body>";
          "templates/snippet.html" := "<p>%%title%%</p>" ]})
  = (Raise MISSING_MARKER,
     set_files reachable_world
       {[ "templates/turkey.html.skel" := "<body></body>";
          "templates/snippet.html" := "<p>%%title%%</p>" ]}).
Proof.
  assert (Hne : VInt 7 ≠ VNone) by discriminate.
  assert (Hm : ¬ substring PLACEHOLDER_MARKER "<body></body>").
  { rewrite <- contains_spec. discriminate. }
  exact (generate_page_missing_marker "turkey.html" None None
           (set_files reachable_world
              {[ "templates/turkey.html.skel" := "<body></body>";
                 "templates/snippet.html" := "<p>%%title%%</p>" ]})
           example_config
           {| trip_page := λ _, Some {[ "page_id" := VInt 7 ]};
              trip_snippet := λ _, [ {[ "title" := VStr "Hello"; "active" := VInt 1 ]} ] |}
           {[ "page_id" := VInt 7 ]} (VInt 7) "<body></body>" "<p>%%title%%</p>"
           eq_refl eq_refl eq_refl eq_refl eq_refl eq_refl eq_refl Hne Hm).
Defined.

(** ** [main] *)



(** ** More on [load_db_config] *)



(** X9: a variable that is set to the empty string counts as set.  An
    empty [DB_PORT] hides the port of the file and makes the loader raise
    the invalid-port error (it is not reported as missing), and an empty
    [DB_HOST] gives a configuration whose host is the empty string. *)
Theorem load_db_config_empty_variable (w : world) (h p d u pw : string) :
  merged_field w "dbname" "DB_NAME" = Some d →
  merged_field w "user" "DB_USER" = Some u →
  merged_field w "password" "DB_PASSWORD" = Some pw →
  (environ w !! "DB_PORT" = Some "" →
   merged_field w "host" "DB_HOST" = Some h →
   load_db_config w = (Raise (GenerationError "Invalid port number: "), w))
  ∧ (environ w !! "DB_HOST" = Some "" →
     merged_field w "port" "DB_PORT" = Some p →
     ∀ n, Py.int_of_str p = Some n →
     load_db_config w
     = (Ok {| host := ""; port := n; dbname := d; user := u; password := pw |}, w)).
Proof.
  intros Hd Hu Hpw. pose proof (load_db_config_cases w) as H. cbv zeta in H.
  rewrite Hd, Hu, Hpw in H. split.
  - intros Hp Hh. rewrite Hh in H. unfold merged_field at 1 in H.
    by rewrite Hp in H.
  - intros Hh Hp n Hn. rewrite Hp in H. unfold merged_field at 1 in H.
    by rewrite Hh, Hn in H.
Qed.

Lemma load_db_config_empty_variable_witness :
  load_db_config (config_world {[ "DB_PORT" := "" ]} complete_ini)
  = (Raise (GenerationError "Invalid port number: "),
     config_world {[ "DB_PORT" := "" ]} complete_ini)
  ∧ load_db_config (config_world {[ "DB_HOST" := "" ]} complete_ini)
    = (Ok {| host := ""; port := 5432; dbname := "trips"; user := "web";
             password := "secret" |},
       config_world {[ "DB_HOST" := "" ]} complete_ini).
Proof.
  split.
  - exact (proj1 (load_db_config_empty_variable
                    (config_world {[ "DB_PORT" := "" ]} complete_ini)
                    "localhost" "" "trips" "web" "secret" eq_refl eq_refl eq_refl)
             eq_refl eq_refl).
  - exact (proj2 (load_db_config_empty_variable
                    (config_world {[ "DB_HOST" := "" ]} complete_ini)
                    "" "5432" "trips" "web" "secret" eq_refl eq_refl eq_refl)
             eq_refl eq_refl 5432 eq_refl).
Defined.



(** ** More on rendering and aggregation *)

(** X11: the two counters of [render_snippets] account for every record:
    the number of renderings and the number of skipped records add up to
    the number of records, and the renderings are as many as the active
    records. *)
Theorem render_loop_counts (template : string) (snippets : list record) :
  ∃ rendered skipped,
    render_loop template snippets [] O = Ok (rendered, skipped)
    ∧ (length rendered + skipped = length snippets)%nat
    ∧ length rendered = length (List.filter is_active snippets).
Proof.
  eexists _, _. split; [apply render_loop_spec|].
  cbn [app]. rewrite length_map. split; [|done].
  rewrite Nat.add_0_l. apply filter_length.
Qed.

(** X12: a record that is not active leaves no trace in the output of
    [render_snippets], not even an empty line: with or without it the
    result is the same. *)
Theorem render_snippets_inactive_ignored (template : string)
    (before after : list record) (snippet : record) :
  is_active snippet = false →
  render_snippets template (before ++ snippet :: after)
  = render_snippets template (before ++ after).
Proof.
  intros H. rewrite !render_snippets_spec, !List.filter_app.
  cbn [List.filter]. by rewrite H.
Qed.

Lemma render_snippets_inactive_ignored_witness :
  render_snippets "<p>%%title%%</p>"
    ([ {[ "title" := VStr "First"; "active" := VInt 1 ]} ]
     ++ {[ "title" := VStr "Second"; "active" := VStr "no" ]}
     :: [ {[ "title" := VStr "Third"; "active" := VInt 3 ]} ])
  = render_snippets "<p>%%title%%</p>"
      ([ {[ "title" := VStr "First"; "active" := VInt 1 ]} ]
       ++ [ {[ "title" := VStr "Third"; "active" := VInt 3 ]} ]).
Proof.
  exact (render_snippets_inactive_ignored "<p>%%title%%</p>"
           [ {[ "title" := VStr "First"; "active" := VInt 1 ]} ]
           [ {[ "title" := VStr "Third"; "active" := VInt 3 ]} ]
           {[ "title" := VStr "Second"; "active" := VStr "no" ]} eq_refl).
Defined.

Lemma substring_app_l (sub a s : string) : substring sub s → substring sub (a +:+ s).
Proof.
  intros (pre & post & ->). exists (a +:+ pre), post. by rewrite append_assoc.
Qed.

Lemma substring_app_r (sub s b : string) : substring sub s → substring sub (s +:+ b).
Proof.
  intros (pre & post & ->). exists pre, (post +:+ b). by rewrite !append_assoc.
Qed.

(** Rendering looks at the record through the fields of the tokens of the
    template, and at nothing else. *)
Lemma render_snippet_ext (template : string) (data1 data2 : record) :
  (∀ field, substring (token field) template →
     replace_field data1 field = replace_field data2 field) →
  render_snippet template data1 = render_snippet template data2.
Proof.
  remember (String.length template) as n eqn:Hn. revert template Hn.
  induction n as [n IH] using lt_wf_ind. intros template -> Hext.
  destruct (no_token_before template "") eqn:E.
  - by rewrite !render_snippet_no_token.
  - destruct (first_token template E) as (pre & field & post & -> & Hf & Hpre).
    rewrite !render_snippet_first_token by done.
    rewrite (Hext field) by by exists pre, post.
    do 2 f_equal. eapply IH; [|done|].
    + unfold token. rewrite !length_append. simpl. lia.
    + intros g Hg. apply Hext.
      by apply substring_app_l, substring_app_l.
Qed.

(** X13: a key that no token of the template names does not matter: adding
    it to the record, or changing its value, leaves the rendering as it
    is. *)
Theorem render_snippet_unused_key (template : string) (data : record)
    (key : string) (v : value) :
  ¬ substring (token key) template →
  render_snippet template (<[ key := v ]> data) = render_snippet template data.
Proof.
  intros Hk. apply render_snippet_ext. intros field Hf.
  unfold replace_field. rewrite lookup_insert_ne; [done|]. by intros ->.
Qed.

Lemma render_snippet_unused_key_witness :
  render_snippet "<p>%%title%%</p>"
    (<[ "price" := VInt 100 ]> {[ "title" := VStr "Hello" ]})
  = render_snippet "<p>%%title%%</p>" {[ "title" := VStr "Hello" ]}.
Proof.
  assert (H : ¬ substring (token "price") "<p>%%title%%</p>").
  { rewrite <- contains_spec. discriminate. }
  exact (render_snippet_unused_key "<p>%%title%%</p>" {[ "title" := VStr "Hello" ]}
           "price" (VInt 100) H).
Defined.

(** X14: a key whose value is [None] and a key that is not there render
    alike, in every template. *)
Theorem render_snippet_none_is_absent (template : string) (data : record)
    (key : string) :
  render_snippet template (<[ key := VNone ]> data)
  = render_snippet template (delete key data).
Proof.
  apply render_snippet_ext. intros field _. unfold replace_field.
  destruct (decide (key = field)) as [->|Hne].
  - by rewrite lookup_insert_eq, lookup_delete_eq.
  - by rewrite lookup_insert_ne, lookup_delete_ne.
Qed.


(** ** [strip] and the decimal strings *)

Lemma rstrip_spaces_id (s : string) :
  all_chars (λ c, negb (Py.isspace c)) s = true → Py.rstrip_spaces s = s.
Proof.
  induction s as [|c s IH]; [done|]. intros [Hc Hs]%andb_true_iff.
  cbn [Py.rstrip_spaces]. rewrite IH by done. apply negb_true_iff in Hc. rewrite Hc.
  by destruct s.
Qed.

Lemma strip_id (s : string) :
  all_chars (λ c, negb (Py.isspace c)) s = true → Py.strip s = s.
Proof.
  intros H. unfold Py.strip.
  assert (Py.lstrip_spaces s = s) as ->.
  { destruct s as [|c s]; [done|]. cbn [all_chars] in H.
    apply andb_true_iff in H as [Hc _]. apply negb_true_iff in Hc.
    cbn [Py.lstrip_spaces]. by rewrite Hc. }
  by apply rstrip_spaces_id.
Qed.

Lemma pretty_N_char_not_isspace (x : N) : Py.isspace (pretty_N_char x) = false.
Proof.
  unfold pretty_N_char.
  destruct x as [|p]; [done|]. by do 4 (try destruct p as [p|p|]).
Qed.

Lemma pretty_N_go_not_isspace (x : N) (s : string) :
  all_chars (λ c, negb (Py.isspace c)) s = true →
  all_chars (λ c, negb (Py.isspace c)) (pretty_N_go x s) = true.
Proof.
  revert s. induction (N.lt_wf_0 x) as [x _ IH]. intros s Hs.
  destruct (decide (x = 0)%N) as [->|Hx]; [by rewrite pretty_N_go_0|].
  rewrite pretty_N_go_step by lia. apply IH; [apply N.div_lt; lia|].
  cbn [all_chars]. by rewrite pretty_N_char_not_isspace.
Qed.

(** The decimal string of an integer has nothing to strip. *)
Lemma strip_pretty (z : Z) : Py.strip (pretty z) = pretty z.
Proof.
  apply strip_id. destruct z as [|p|p]; [done|..].
  - unfold pretty, pretty_Z, pretty, pretty_positive, pretty, pretty_N.
    rewrite decide_False by done. by apply pretty_N_go_not_isspace.
  - unfold pretty at 1, pretty_Z.
    change ("-" +:+ pretty p) with (String "-" (pretty p)). cbn [all_chars].
    unfold pretty, pretty_positive, pretty, pretty_N.
    rewrite decide_False by done. by apply pretty_N_go_not_isspace.
Qed.

Lemma int_of_str_pretty (z : Z) : Py.int_of_str (pretty z) = Some z.
Proof.
  pose proof (int_str z) as H. unfold Py.int, Py.str in H.
  by destruct (Py.int_of_str (pretty z)); simplify_eq.
Qed.

(** * Facts on the form *)

Module GuiFacts.
Import Gui.

Section Facts.
Context {DB : Type}.
Variable transact : statement → DB → string + DB.
Variable select_pages : DB → list (value * value * value).
Variable select_snippets : DB → Z → list (value * value * value * value).
Variable select_page : DB → Z → option record.
Variable select_snippet : DB → Z → option record.

Lemma G_bind_unfold {A B : Type} (m : G DB A) (k : A → G DB B) (app : App DB) :
  (m ≫= k) app = match m app with
                  | (Return a, app') => k a app'
                  | (Throw e, app') => (Throw e, app')
                  end.
Proof. reflexivity. Qed.

(** A loop keeps what each of its rounds keeps. *)
Lemma for_each_keeps {A B : Type} (f : App DB → B) (xs : list A)
    (body : A → G DB ()) (app : App DB) :
  (∀ x app, f (body x app).2 = f app) →
  f (for_each DB xs body app).2 = f app.
Proof.
  intros Hbody. revert app. induction xs as [|x xs IH]; intros app; [done|].
  cbn [for_each]. rewrite G_bind_unfold.
  specialize (Hbody x app). destruct (body x app) as [[[]|e] app1]; simpl in *.
  - by rewrite IH.
  - done.
Qed.

(** [_load_snippets] touches the snippet tree and nothing else. *)
Lemma load_snippets_keeps (page_id : Z) (app : App DB) :
  set_snippet_tree (_load_snippets select_snippets page_id app).2 (snippet_tree app) = app.
Proof.
  unfold _load_snippets. rewrite G_bind_unfold. cbn [update]. rewrite G_bind_unfold. cbn [get].
  set (app1 := set_snippet_tree app (tree_clear (snippet_tree app))).
  transitivity (set_snippet_tree app1 (snippet_tree app)); [|by destruct app].
  match goal with
  | |- context [for_each DB ?xs ?body app1] =>
      apply (for_each_keeps (λ a, set_snippet_tree a (snippet_tree app)) xs body app1)
  end.
  intros [[[snippet_id code] title] active] a. rewrite G_bind_unfold. cbn [get].
  by destruct (tree_insert _ _ _).
Qed.

Lemma load_pages_keeps (app : App DB) :
  set_page_tree (_load_pages select_pages app).2 (page_tree app) = app.
Proof.
  unfold _load_pages. rewrite G_bind_unfold. cbn [update]. rewrite G_bind_unfold. cbn [get].
  set (app1 := set_page_tree app (tree_clear (page_tree app))).
  transitivity (set_page_tree app1 (page_tree app)); [|by destruct app].
  match goal with
  | |- context [for_each DB ?xs ?body app1] =>
      apply (for_each_keeps (λ a, set_page_tree a (page_tree app)) xs body app1)
  end.
  intros [[page_id page_name] page_desc] a. rewrite G_bind_unfold. cbn [get].
  by destruct (tree_insert _ _ _).
Qed.

(** Selecting an item touches the tree only, and when it returns the item
    is selected. *)
Lemma select_in_snippet_tree_outcome (iid : string) (app : App DB) :
  set_snippet_tree (select_in_snippet_tree iid app).2 (snippet_tree app) = app
  ∧ ((select_in_snippet_tree iid app).1 = Return () →
     selection (snippet_tree (select_in_snippet_tree iid app).2) = Some iid).
Proof.
  unfold select_in_snippet_tree, tree_selection_set, tree_focus.
  rewrite G_bind_unfold. cbn [get].
  destruct (bool_decide (iid ∈ (items (snippet_tree app)).*1)) eqn:E; simpl;
    [rewrite E|]; by destruct app.
Qed.

Lemma select_in_page_tree_outcome (iid : string) (app : App DB) :
  set_page_tree (select_in_page_tree iid app).2 (page_tree app) = app
  ∧ ((select_in_page_tree iid app).1 = Return () →
     selection (page_tree (select_in_page_tree iid app).2) = Some iid).
Proof.
  unfold select_in_page_tree, tree_selection_set, tree_focus.
  rewrite G_bind_unfold. cbn [get].
  destruct (bool_decide (iid ∈ (items (page_tree app)).*1)) eqn:E; simpl;
    [rewrite E|]; by destruct app.
Qed.

Lemma typed_active_eq (entries : gmap string Entry) :
  (if bool_decide (default "" (typed entries "active") = "") then Some 0
   else Py.int_of_str (default "" (typed entries "active")))
  = typed_active entries.
Proof. unfold typed_active. by destruct (default "" (typed entries "active")). Qed.

(** [_save_snippet], step by step. *)
Lemma save_snippet_eval (app : App DB) :
  _save_snippet transact select_snippets app =
    match current_page_id app with
    | None =>
        (Return (),
         show (showwarning "Select Page" "Select a page before saving snippets.") app)
    | Some page_id =>
        match typed (snippet_entries app) "snippet_id" with
        | None => (Throw GKeyError, app)
        | Some snippet_id_text =>
            if bool_decide (snippet_id_text = "")
            then (Return (),
                  show (showerror "Validation Error" "Snippet ID is required.") app)
            else
              match Py.int_of_str snippet_id_text with
              | None =>
                  (Return (),
                   show (showerror "Validation Error" "Snippet ID must be an integer.") app)
              | Some snippet_id =>
                  match typed_active (snippet_entries app) with
                  | None =>
                      (Return (),
                       show (showerror "Validation Error" "Active must be an integer.") app)
                  | Some active =>
                      match transact
                              match current_snippet_id app with
                              | None => InsertSnippet snippet_id page_id
                                          (typed_texts (snippet_entries app)) active
                              | Some current =>
                                  UpdateSnippet (typed_texts (snippet_entries app))
                                    active current
                              end (conn app) with
                      | inl message =>
                          (Return (), show (showerror "Database Error" message) app)
                      | inr db =>
                          (_ ← _load_snippets select_snippets page_id;
                           _ ← select_in_snippet_tree (pretty snippet_id);
                           update DB (show (showinfo "Success" "Snippet saved successfully.")))
                            (set_current_snippet_id (set_conn app db) (Some snippet_id))
                      end
                  end
              end
        end
    end.
Proof.
  unfold _save_snippet. rewrite G_bind_unfold. cbn [get].
  destruct (current_page_id app) as [page_id|]; [|done].
  rewrite G_bind_unfold. unfold data_of. rewrite !lookup_fmap.
  fold (typed (snippet_entries app) "snippet_id").
  fold (typed (snippet_entries app) "active").
  destruct (typed (snippet_entries app) "snippet_id") as [t|]; [|done].
  cbn [mret G_ret]. destruct (bool_decide (t = "")); [done|].
  destruct (Py.int_of_str t) as [snippet_id|]; [|done].
  rewrite typed_active_eq.
  destruct (typed_active (snippet_entries app)) as [active|]; [|done].
  assert (map (λ column, _normalize
                 (default "" (((λ entry, Py.strip (text entry)) <$> snippet_entries app)
                              !! column))) TEXT_COLUMNS
          = typed_texts (snippet_entries app)) as ->.
  { unfold typed_texts, typed. apply map_ext. intros column. by rewrite lookup_fmap. }
  by destruct (transact _ (conn app)).
Qed.

Lemma set_snippet_tree_eq (a b : App DB) (t : Tree) :
  set_snippet_tree a t = b →
  page_entries a = page_entries b ∧ snippet_entries a = snippet_entries b
  ∧ current_page_id a = current_page_id b ∧ current_snippet_id a = current_snippet_id b
  ∧ page_tree a = page_tree b ∧ conn a = conn b ∧ dialogs a = dialogs b.
Proof. intros <-. by destruct a. Qed.

Lemma set_page_tree_eq (a b : App DB) (t : Tree) :
  set_page_tree a t = b →
  page_entries a = page_entries b ∧ snippet_entries a = snippet_entries b
  ∧ current_page_id a = current_page_id b ∧ current_snippet_id a = current_snippet_id b
  ∧ snippet_tree a = snippet_tree b ∧ conn a = conn b ∧ dialogs a = dialogs b.
Proof. intros <-. by destruct a. Qed.

(** What follows the commit in [_save_snippet]: the tree is loaded again,
    the saved item is selected and the success is announced.  Only the
    snippet tree and the dialogs change; the dialog comes when nothing was
    raised. *)
Lemma save_snippet_tail (page_id : Z) (iid : string) (app : App DB) :
  let result :=
    (_ ← _load_snippets select_snippets page_id;
     _ ← select_in_snippet_tree iid;
     update DB (show (showinfo "Success" "Snippet saved successfully."))) app in
  page_entries result.2 = page_entries app
  ∧ snippet_entries result.2 = snippet_entries app
  ∧ current_page_id result.2 = current_page_id app
  ∧ current_snippet_id result.2 = current_snippet_id app
  ∧ page_tree result.2 = page_tree app
  ∧ conn result.2 = conn app
  ∧ (result.1 = Return () →
     dialogs result.2 = dialogs app ++ [showinfo "Success" "Snippet saved successfully."]
     ∧ selection (snippet_tree result.2) = Some iid)
  ∧ (result.1 ≠ Return () → dialogs result.2 = dialogs app).
Proof.
  cbv zeta. rewrite G_bind_unfold.
  pose proof (load_snippets_keeps page_id app) as H1.
  destruct (_load_snippets select_snippets page_id app) as [[[]|e] app1]; simpl in H1.
  - apply set_snippet_tree_eq in H1 as (E1 & E2 & E3 & E4 & E5 & E6 & E7).
    rewrite G_bind_unfold.
    destruct (select_in_snippet_tree_outcome iid app1) as [H2 H3].
    destruct (select_in_snippet_tree iid app1) as [[[]|e] app2]; simpl in *.
    + apply set_snippet_tree_eq in H2 as (F1 & F2 & F3 & F4 & F5 & F6 & F7).
      repeat split; try congruence; by auto.
    + apply set_snippet_tree_eq in H2 as (F1 & F2 & F3 & F4 & F5 & F6 & F7).
      repeat split; try congruence; by auto.
  - apply set_snippet_tree_eq in H1 as (E1 & E2 & E3 & E4 & E5 & E6 & E7).
    repeat split; try congruence; by auto.
Qed.

(** X16: [_save_snippet] does not reach the database unless the form is
    valid: when no page is selected, or the snippet identifier is blank or
    no integer, or the flag is neither blank nor an integer, it shows one
    dialog and leaves everything else, the database included, as it
    was. *)
Theorem save_snippet_rejects (app : App DB) :
  snippet_statement app = None →
  current_page_id app = None ∨ is_Some (snippet_entries app !! "snippet_id") →
  ∃ d, _save_snippet transact select_snippets app = (Return (), show d app).
Proof.
  rewrite save_snippet_eval. unfold snippet_statement.
  destruct (current_page_id app) as [page_id|]; [|by eauto].
  cbn [mbind option_bind]. intros H [|[entry He]]; [done|].
  unfold typed in *. rewrite He in *. cbn [fmap option_fmap option_map mbind option_bind] in *.
  destruct (bool_decide _); [by eauto|].
  destruct (Py.int_of_str _) as [snippet_id|]; [|by eauto].
  cbn [mbind option_bind] in H.
  destruct (typed_active (snippet_entries app)) as [active|]; [done | by eauto].
Qed.

(** X17: on a valid form [_save_snippet] runs one transaction, with the
    statement of the form.  When the database refuses it, the text of the
    exception is shown as a database error and nothing else changes: the
    current snippet stays what it was.  When the database accepts it, the
    current snippet becomes the one that was typed, the form and the page
    side stay as they were, and the success is announced once the saved
    item is selected in the tree. *)
Theorem save_snippet_transaction (app : App DB) (stmt : statement) :
  snippet_statement app = Some stmt →
  (∀ message, transact stmt (conn app) = inl message →
     _save_snippet transact select_snippets app
     = (Return (), show (showerror "Database Error" message) app))
  ∧ (∀ db, transact stmt (conn app) = inr db →
       let result := _save_snippet transact select_snippets app in
       conn result.2 = db
       ∧ current_snippet_id result.2
         = typed (snippet_entries app) "snippet_id" ≫= Py.int_of_str
       ∧ page_entries result.2 = page_entries app
       ∧ snippet_entries result.2 = snippet_entries app
       ∧ current_page_id result.2 = current_page_id app
       ∧ page_tree result.2 = page_tree app
       ∧ (result.1 = Return () →
          dialogs result.2
          = dialogs app ++ [showinfo "Success" "Snippet saved successfully."]
          ∧ selection (snippet_tree result.2)
            = pretty <$> current_snippet_id result.2)
       ∧ (result.1 ≠ Return () → dialogs result.2 = dialogs app)).
Proof.
  rewrite save_snippet_eval. unfold snippet_statement.
  destruct (current_page_id app) as [page_id|] eqn:Hp; [|done].
  cbn [mbind option_bind].
  destruct (typed (snippet_entries app) "snippet_id") as [t|]; [|done].
  cbn [mbind option_bind].
  destruct (Py.int_of_str t) as [snippet_id|] eqn:Ht; [|done].
  cbn [mbind option_bind].
  destruct (typed_active (snippet_entries app)) as [active|]; [|done].
  intros [= <-].
  assert (bool_decide (t = "") = false) as ->.
  { apply bool_decide_eq_false. by intros ->. }
  split.
  - by intros message ->.
  - intros db ->. cbv zeta.
    pose proof (save_snippet_tail page_id (pretty snippet_id)
                  (set_current_snippet_id (set_conn app db) (Some snippet_id))) as H.
    cbv zeta in H. destruct H as (E1 & E2 & E3 & E4 & E5 & E6 & E7 & E8).
    split; [exact E6|]. split; [exact E4|]. split; [exact E1|]. split; [exact E2|].
    split; [by rewrite E3|]. split; [exact E5|]. split; [|exact E8].
    intros Hr. destruct (E7 Hr) as [Hd Hs]. split; [exact Hd|].
    rewrite E4. exact Hs.
Qed.

Lemma render_snippet_token_eq (data : record) (field : string) :
  is_identifier field = true →
  render_snippet (token field) data = replace_field data field.
Proof.
  intros Hf.
  pose proof (render_snippet_first_token data "" field "" Hf eq_refl) as H.
  change ("" +:+ token field +:+ "") with (token field +:+ "") in H.
  rewrite append_nil_r in H. rewrite H.
  rewrite (render_snippet_no_token data "") by done. apply append_nil_r.
Qed.

(** X18: what the form saves is what the generator shows.  For the columns
    that a valid snippet form writes, read back as a row: the row is
    active exactly when the flag that was typed is an integer other than
    zero, a blank flag making it inactive; and the token of every text
    column renders to the text that was typed, stripped, a blank field
    being stored as [None] and rendered as the empty string. *)
Theorem saved_snippet_and_generator (app : App DB) (stmt : statement) :
  snippet_statement app = Some stmt →
  ∃ texts active,
    ((∃ snippet_id page_id, stmt = InsertSnippet snippet_id page_id texts active)
     ∨ (∃ current, stmt = UpdateSnippet texts active current))
    ∧ typed_active (snippet_entries app) = Some active
    ∧ _is_snippet_active (written_columns texts active) = Ok (negb (active =? 0))
    ∧ (default "" (typed (snippet_entries app) "active") = "" →
       _is_snippet_active (written_columns texts active) = Ok false)
    ∧ ∀ column, column ∈ TEXT_COLUMNS →
        render_snippet (token column) (written_columns texts active)
        = default "" (typed (snippet_entries app) column).
Proof.
  unfold snippet_statement.
  destruct (current_page_id app) as [page_id|]; [|done]. cbn [mbind option_bind].
  destruct (typed (snippet_entries app) "snippet_id" ≫= Py.int_of_str) as [snippet_id|];
    [|done].
  cbn [mbind option_bind].
  destruct (typed_active (snippet_entries app)) as [active|] eqn:Ha; [|done].
  intros [= <-]. exists (typed_texts (snippet_entries app)), active.
  assert (Hact : _is_snippet_active
                   (written_columns (typed_texts (snippet_entries app)) active)
                 = Ok (negb (active =? 0))).
  { rewrite _is_snippet_active_is_active. unfold is_active, written_columns.
    by rewrite lookup_insert_eq. }
  split; [destruct (current_snippet_id app); eauto|]. split; [done|].
  split; [done|]. split.
  - intros Hb. rewrite Hact. unfold typed_active in Ha. rewrite Hb in Ha.
    by injection Ha as <-.
  - intros column Hc. unfold TEXT_COLUMNS in Hc.
    repeat (apply elem_of_cons in Hc as [-> | Hc]; [
      rewrite render_snippet_token_eq by reflexivity;
      unfold replace_field, written_columns, typed_texts, TEXT_COLUMNS;
      cbn [map fmap list_fmap zip zip_with list_to_map foldr uncurry];
      simplify_map_eq;
      by destruct (default "" (typed (snippet_entries app) _)) |]).
    by apply elem_of_nil in Hc.
Qed.

Lemma fill_eq (s : string) (lock : bool) (e : Entry) :
  fill s lock e = {| text := s; disabled := lock |}.
Proof.
  unfold fill, insert_first, delete_all, configure. cbn.
  rewrite append_nil_r. by destruct lock.
Qed.

(** The loop of [_populate_snippet_form]: when the fields have their
    entries it returns, and each field then shows its value of the row. *)
Lemma populate_snippet_loop (row : record) (fields : list (string * string))
    (app : App DB) :
  (∀ f, f ∈ fields.*1 → is_Some (snippet_entries app !! f)) →
  ∃ entries,
    for_each DB fields (λ '(field, _),
      app ← get DB;
      entry ← entry_of DB (snippet_entries app) field;
      let value :=
        match row !! field with
        | None | Some VNone => ""
        | Some v => Py.str v
        end in
      update DB (λ app, set_snippet_entries app
                (<[ field := fill value (bool_decide (field = "snippet_id")
                                          || bool_decide (field = "page_id")) entry ]>
                   (snippet_entries app)))) app
    = (Return (), set_snippet_entries app entries)
    ∧ (∀ f, f ∈ fields.*1 →
         text <$> entries !! f = Some (shown_in_snippet_form (row !! f)))
    ∧ (∀ f, f ∉ fields.*1 → entries !! f = snippet_entries app !! f).
Proof.
  revert app. induction fields as [|[field label] fields IH]; intros app Hin.
  { exists (snippet_entries app). split; [by destruct app|]. split; [|done].
    intros f Hf. by apply elem_of_nil in Hf. }
  assert (Hcons : ∀ f, f ∈ ((field, label) :: fields).*1 ↔ f = field ∨ f ∈ fields.*1)
    by (intros f; rewrite fmap_cons; apply elem_of_cons).
  cbn [for_each]. rewrite G_bind_unfold, G_bind_unfold. cbn [get].
  destruct (Hin field) as [entry He]; [apply Hcons; by left|].
  unfold entry_of at 1. rewrite He, G_bind_unfold. cbn [mret G_ret update].
  rewrite fill_eq.
  set (app1 := set_snippet_entries app _).
  destruct (IH app1) as (entries & Hrun & Hshown & Hother).
  { intros f Hf. subst app1. cbn [snippet_entries set_snippet_entries].
    destruct (decide (field = f)) as [->|Hne].
    - rewrite lookup_insert_eq. eauto.
    - rewrite lookup_insert_ne by done. apply Hin, Hcons. by right. }
  exists entries. split; [etrans; [exact Hrun|]; subst app1; by destruct app|]. split.
  - intros f Hf. destruct (decide (f ∈ fields.*1)) as [Hr|Hr]; [by apply Hshown|].
    assert (f = field) as -> by (apply Hcons in Hf as [|]; done).
    rewrite Hother by done. subst app1. cbn [snippet_entries set_snippet_entries].
    by rewrite lookup_insert_eq.
  - intros f Hf. rewrite Hother by (intros ?; apply Hf, Hcons; by right).
    subst app1. cbn [snippet_entries set_snippet_entries].
    apply lookup_insert_ne. intros ->. apply Hf, Hcons. by left.
Qed.

(** X19: selecting a snippet and saving it without typing writes back what
    was read.  When the tree holds the identifier of a snippet as its
    decimal string, the form has its fields, the row of the snippet has
    that identifier, and the text columns show nothing that [strip] would
    remove, [_on_snippet_select] returns and the form is then valid: its
    statement updates that snippet with the text columns as they were, the
    blank ones as [None], and with the flag of the row, [0] for a flag that
    is [None]. *)
Theorem select_then_save_snippet (app : App DB) (snippet_id page_id active : Z)
    (row : record) :
  selection (snippet_tree app) = Some (pretty snippet_id) →
  current_page_id app = Some page_id →
  select_snippet (conn app) snippet_id = Some row →
  (∀ f, f ∈ SNIPPET_FIELDS.*1 → is_Some (snippet_entries app !! f)) →
  row !! "snippet_id" = Some (VInt snippet_id) →
  row !! "active" = Some (VInt active)
  ∨ (row !! "active" = Some VNone ∧ active = 0) →
  (∀ column, column ∈ TEXT_COLUMNS →
     Py.strip (shown_in_snippet_form (row !! column))
     = shown_in_snippet_form (row !! column)) →
  (_on_snippet_select select_snippet app).1 = Return ()
  ∧ snippet_statement (_on_snippet_select select_snippet app).2
    = Some (UpdateSnippet
              (map (λ column, _normalize (shown_in_snippet_form (row !! column)))
                 TEXT_COLUMNS)
              active snippet_id).
Proof.
  intros Hsel Hpage Hrow Hentries Hid Hactive Hclean.
  unfold _on_snippet_select. rewrite G_bind_unfold. cbn [get]. rewrite Hsel.
  rewrite int_of_str_pretty, G_bind_unfold. cbn [update].
  set (app1 := set_current_snippet_id app (Some snippet_id)).
  unfold _populate_snippet_form. rewrite G_bind_unfold. cbn [get].
  change (conn app1) with (conn app). rewrite Hrow.
  rewrite bool_decide_eq_false_2 by (intros ->; by rewrite lookup_empty in Hid).
  destruct (populate_snippet_loop row SNIPPET_FIELDS app1 Hentries)
    as (entries & Hrun & Hshown & _).
  cbv zeta in Hrun. rewrite Hrun.
  split; [done|]. cbn [snd].
  assert (Htyped : ∀ f, f ∈ SNIPPET_FIELDS.*1 →
            typed entries f = Some (Py.strip (shown_in_snippet_form (row !! f)))).
  { intros f Hf. specialize (Hshown f Hf). unfold typed.
    destruct (entries !! f) as [e|]; [|done].
    cbn [fmap option_fmap option_map] in *. by injection Hshown as ->. }
  unfold snippet_statement. cbn [current_page_id current_snippet_id snippet_entries
    set_snippet_entries app1 set_current_snippet_id].
  rewrite Hpage. cbn [mbind option_bind].
  rewrite (Htyped "snippet_id") by (apply (bool_decide_unpack _); by vm_compute).
  rewrite Hid. cbn [mbind option_bind].
  cbn [shown_in_snippet_form Py.str]. rewrite strip_pretty, int_of_str_pretty.
  cbn [mbind option_bind].
  assert (typed_active entries = Some active) as ->.
  { unfold typed_active. rewrite (Htyped "active") by (apply (bool_decide_unpack _); by vm_compute).
    cbn [default].
    destruct Hactive as [-> | [-> ->]]; [|done].
    cbn [shown_in_snippet_form Py.str]. rewrite strip_pretty.
    pose proof (int_of_str_pretty active) as Hi.
    destruct (pretty active); [done | exact Hi]. }
  cbn [mbind option_bind]. do 2 f_equal. unfold typed_texts.
  apply map_ext_in. intros column Hc%list_elem_of_In.
  rewrite (Htyped column), Hclean; [done | done |].
  revert column Hc. apply Forall_forall, (bool_decide_unpack _). by vm_compute.
Qed.

Lemma populate_page_loop (row : record) (fields : list (string * string))
    (app : App DB) :
  (∀ f, f ∈ fields.*1 → is_Some (page_entries app !! f)) →
  ∃ entries,
    for_each DB fields (λ '(field, _),
      app ← get DB;
      entry ← entry_of DB (page_entries app) field;
      let value :=
        match row !! field with
        | Some v => if Py.truthy v then Py.str v else ""
        | None => ""
        end in
      update DB (λ app, set_page_entries app
                (<[ field := fill value (bool_decide (field = "page_id")) entry ]>
                   (page_entries app)))) app
    = (Return (), set_page_entries app entries)
    ∧ (∀ f, f ∈ fields.*1 →
         text <$> entries !! f = Some (shown_in_page_form (row !! f)))
    ∧ (∀ f, f ∉ fields.*1 → entries !! f = page_entries app !! f).
Proof.
  revert app. induction fields as [|[field label] fields IH]; intros app Hin.
  { exists (page_entries app). split; [by destruct app|]. split; [|done].
    intros f Hf. by apply elem_of_nil in Hf. }
  assert (Hcons : ∀ f, f ∈ ((field, label) :: fields).*1 ↔ f = field ∨ f ∈ fields.*1)
    by (intros f; rewrite fmap_cons; apply elem_of_cons).
  cbn [for_each]. rewrite G_bind_unfold, G_bind_unfold. cbn [get].
  destruct (Hin field) as [entry He]; [apply Hcons; by left|].
  unfold entry_of at 1. rewrite He, G_bind_unfold. cbn [mret G_ret update].
  rewrite fill_eq.
  set (app1 := set_page_entries app _).
  destruct (IH app1) as (entries & Hrun & Hshown & Hother).
  { intros f Hf. subst app1. cbn [page_entries set_page_entries].
    destruct (decide (field = f)) as [->|Hne].
    - rewrite lookup_insert_eq. eauto.
    - rewrite lookup_insert_ne by done. apply Hin, Hcons. by right. }
  exists entries. split; [etrans; [exact Hrun|]; subst app1; by destruct app|]. split.
  - intros f Hf. destruct (decide (f ∈ fields.*1)) as [Hr|Hr]; [by apply Hshown|].
    assert (f = field) as -> by (apply Hcons in Hf as [|]; done).
    rewrite Hother by done. subst app1. cbn [page_entries set_page_entries].
    by rewrite lookup_insert_eq.
  - intros f Hf. rewrite Hother by (intros ?; apply Hf, Hcons; by right).
    subst app1. cbn [page_entries set_page_entries].
    apply lookup_insert_ne. intros ->. apply Hf, Hcons. by left.
Qed.

(** [_clear_snippet_form] touches the snippet entries and the current
    snippet, and it returns. *)
Lemma clear_snippet_form_keeps (app : App DB) :
  (_clear_snippet_form app).1 = Return ()
  ∧ page_entries (_clear_snippet_form app).2 = page_entries app
  ∧ current_page_id (_clear_snippet_form app).2 = current_page_id app
  ∧ current_snippet_id (_clear_snippet_form app).2 = None
  ∧ page_tree (_clear_snippet_form app).2 = page_tree app
  ∧ snippet_tree (_clear_snippet_form app).2 = snippet_tree app
  ∧ conn (_clear_snippet_form app).2 = conn app
  ∧ dialogs (_clear_snippet_form app).2 = dialogs app.
Proof.
  unfold _clear_snippet_form. repeat (rewrite G_bind_unfold; cbn [update get]).
  cbn [snippet_entries set_snippet_entries set_current_snippet_id].
  rewrite lookup_fmap. by destruct (snippet_entries app !! "page_id").
Qed.

(** The page side of the form after [_on_page_select]: the page of the
    selected item is the current one and its row is shown, whether the
    snippets of the page could be listed or not. *)
Lemma on_page_select_page_side (app : App DB) (page_id : Z) (row : record) :
  selection (page_tree app) = Some (pretty page_id) →
  select_page (conn app) page_id = Some row →
  row ≠ ∅ →
  (∀ f, f ∈ PAGE_FIELDS.*1 → is_Some (page_entries app !! f)) →
  current_page_id (_on_page_select select_snippets select_page app).2 = Some page_id
  ∧ conn (_on_page_select select_snippets select_page app).2 = conn app
  ∧ dialogs (_on_page_select select_snippets select_page app).2 = dialogs app
  ∧ ∀ f, f ∈ PAGE_FIELDS.*1 →
      text <$> page_entries (_on_page_select select_snippets select_page app).2 !! f
      = Some (shown_in_page_form (row !! f)).
Proof.
  intros Hsel Hrow Hne Hentries.
  unfold _on_page_select. rewrite G_bind_unfold. cbn [get]. rewrite Hsel.
  rewrite int_of_str_pretty. do 2 (rewrite G_bind_unfold; cbn [update]).
  set (app1 := set_current_snippet_id (set_current_page_id app (Some page_id)) None).
  destruct (populate_page_loop row PAGE_FIELDS app1 Hentries)
    as (entries & Hrun & Hshown & _).
  assert (Hpop : _populate_page_form select_page page_id app1
                 = (Return (), set_page_entries app1 entries)).
  { unfold _populate_page_form. rewrite G_bind_unfold. cbn [get].
    change (conn app1) with (conn app). rewrite Hrow.
    rewrite bool_decide_eq_false_2 by done. exact Hrun. }
  rewrite G_bind_unfold, Hpop, G_bind_unfold. clear Hrun Hpop.
  set (app2 := set_page_entries app1 entries).
  pose proof (load_snippets_keeps page_id app2) as H1.
  destruct (_load_snippets select_snippets page_id app2) as [[[]|e] app3]; simpl in H1;
    apply set_snippet_tree_eq in H1 as (E1 & E2 & E3 & E4 & E5 & E6 & E7).
  - destruct (clear_snippet_form_keeps app3) as (_ & F1 & F2 & _ & _ & _ & F3 & F4).
    rewrite F1, F2, F3, F4, E1, E3, E6, E7. by subst app2 app1.
  - cbn [snd]. rewrite E1, E3, E6, E7. by subst app2 app1.
Qed.

(** [_save_page], step by step. *)
Lemma save_page_eval (app : App DB) :
  _save_page transact select_pages app =
    match typed (page_entries app) "page_id" with
    | None => (Throw GKeyError, app)
    | Some page_id_text =>
        if bool_decide (page_id_text = "")
        then (Return (), show (showerror "Validation Error" "Page ID is required.") app)
        else
          match typed (page_entries app) "page_name" with
          | None => (Throw GKeyError, app)
          | Some page_name =>
              if bool_decide (page_name = "")
              then (Return (),
                    show (showerror "Validation Error" "Page name is required.") app)
              else
                match Py.int_of_str page_id_text with
                | None =>
                    (Return (),
                     show (showerror "Validation Error" "Page ID must be an integer.") app)
                | Some page_id =>
                    let page_desc :=
                      _normalize (default "" (typed (page_entries app) "page_desc")) in
                    match transact
                            match current_page_id app with
                            | None => InsertPage page_id page_name page_desc
                            | Some current => UpdatePage page_name page_desc current
                            end (conn app) with
                    | inl message =>
                        (Return (), show (showerror "Database Error" message) app)
                    | inr db =>
                        (_ ← _load_pages select_pages;
                         _ ← select_in_page_tree (pretty page_id);
                         update DB (show (showinfo "Success" "Page saved successfully.")))
                          (set_conn app db)
                    end
                end
          end
    end.
Proof.
  unfold _save_page. rewrite G_bind_unfold. cbn [get].
  rewrite G_bind_unfold. unfold data_of. rewrite !lookup_fmap.
  fold (typed (page_entries app) "page_id").
  fold (typed (page_entries app) "page_name").
  fold (typed (page_entries app) "page_desc").
  destruct (typed (page_entries app) "page_id") as [t|]; [|done].
  cbn [mret G_ret]. destruct (bool_decide (t = "")); [done|].
  rewrite G_bind_unfold.
  destruct (typed (page_entries app) "page_name") as [name|]; [|done].
  cbn [mret G_ret]. destruct (bool_decide (name = "")); [done|].
  destruct (Py.int_of_str t) as [page_id|]; [|done].
  cbv zeta. by destruct (transact _ (conn app)).
Qed.

(** What follows the commit in [_save_page]: the tree is loaded again, the
    saved item is selected and the success is announced. *)
Lemma save_page_tail (iid : string) (app : App DB) :
  let result :=
    (_ ← _load_pages select_pages;
     _ ← select_in_page_tree iid;
     update DB (show (showinfo "Success" "Page saved successfully."))) app in
  same_form app result.2
  ∧ snippet_tree result.2 = snippet_tree app
  ∧ (result.1 = Return () →
     dialogs result.2 = dialogs app ++ [showinfo "Success" "Page saved successfully."]
     ∧ selection (page_tree result.2) = Some iid)
  ∧ (result.1 ≠ Return () → dialogs result.2 = dialogs app).
Proof.
  cbv zeta. unfold same_form. rewrite G_bind_unfold.
  pose proof (load_pages_keeps app) as H1.
  destruct (_load_pages select_pages app) as [[[]|e] app1]; simpl in H1;
    apply set_page_tree_eq in H1 as (E1 & E2 & E3 & E4 & E5 & E6 & E7).
  - rewrite G_bind_unfold.
    destruct (select_in_page_tree_outcome iid app1) as [H2 H3].
    destruct (select_in_page_tree iid app1) as [[[]|e] app2]; simpl in *;
      apply set_page_tree_eq in H2 as (F1 & F2 & F3 & F4 & F5 & F6 & F7);
      repeat split; try congruence; by auto.
  - simpl. repeat split; try congruence; by auto.
Qed.

(** X20: [_save_page] does not reach the database unless the form is valid:
    when the page identifier is blank or no integer, or the name is blank,
    it shows one validation error and leaves everything else, the database
    included, as it was. *)
Theorem save_page_rejects (app : App DB) :
  page_statement app = None →
  is_Some (page_entries app !! "page_id") →
  is_Some (page_entries app !! "page_name") →
  ∃ message,
    _save_page transact select_pages app
    = (Return (), show (showerror "Validation Error" message) app).
Proof.
  rewrite save_page_eval. unfold page_statement, typed.
  intros H [e1 H1] [e2 H2]. rewrite H1, H2 in *.
  cbn [fmap option_fmap option_map mbind option_bind] in *.
  destruct (bool_decide (Py.strip (text e1) = "")); [by eauto|].
  destruct (bool_decide (Py.strip (text e2) = "")); [by eauto|].
  destruct (Py.int_of_str _); [done | by eauto].
Qed.

(** X21: on a valid form [_save_page] runs one transaction, with the
    statement of the form.  When the database refuses it, the text of the
    exception is shown as a database error and nothing else changes.  When
    the database accepts it, the form, the current page and the current
    snippet stay as they were (the method does not make the saved page the
    current one), and the success is announced once the saved item is
    selected in the tree. *)
Theorem save_page_transaction (app : App DB) (stmt : statement) :
  page_statement app = Some stmt →
  (∀ message, transact stmt (conn app) = inl message →
     _save_page transact select_pages app
     = (Return (), show (showerror "Database Error" message) app))
  ∧ (∀ db, transact stmt (conn app) = inr db →
       let result := _save_page transact select_pages app in
       same_form (set_conn app db) result.2
       ∧ snippet_tree result.2 = snippet_tree app
       ∧ (result.1 = Return () →
          dialogs result.2 = dialogs app ++ [showinfo "Success" "Page saved successfully."]
          ∧ selection (page_tree result.2)
            = pretty <$> (typed (page_entries app) "page_id" ≫= Py.int_of_str))
       ∧ (result.1 ≠ Return () → dialogs result.2 = dialogs app)).
Proof.
  rewrite save_page_eval. unfold page_statement.
  destruct (typed (page_entries app) "page_id") as [t|]; [|done].
  cbn [mbind option_bind].
  destruct (Py.int_of_str t) as [page_id|] eqn:Ht; [|done].
  cbn [mbind option_bind].
  destruct (typed (page_entries app) "page_name") as [name|]; [|done].
  cbn [mbind option_bind].
  assert (bool_decide (t = "") = false) as ->.
  { apply bool_decide_eq_false. by intros ->. }
  destruct (bool_decide (name = "")); [done|].
  intros [= <-]. cbv zeta. split.
  - by intros message ->.
  - intros db ->. apply (save_page_tail (pretty page_id) (set_conn app db)).
Qed.

(** X22: [_add_snippet] without a current page only warns.  With one, it
    returns with no current snippet and with every field of the snippet
    form blank and enabled, but the page field, which shows the current
    page and is disabled: what is saved next is inserted under that
    page. *)
Theorem add_snippet_outcome (app : App DB) :
  match current_page_id app with
  | None =>
      _add_snippet app
      = (Return (), show (showwarning "Select Page" "Select a page before adding snippets.")
                      app)
  | Some page_id =>
      ∃ entries,
        _add_snippet app
        = (Return (), set_snippet_entries (set_current_snippet_id app None) entries)
        ∧ ∀ f, entries !! f
               = (λ _, if bool_decide (f = "page_id")
                       then {| text := pretty page_id; disabled := true |}
                       else {| text := ""; disabled := false |})
                 <$> snippet_entries app !! f
  end.
Proof.
  unfold _add_snippet. rewrite G_bind_unfold. cbn [get].
  destruct (current_page_id app) as [page_id|] eqn:Hp; [|done].
  unfold _clear_snippet_form. repeat (rewrite G_bind_unfold; cbn [update get]).
  cbn [snippet_entries set_snippet_entries set_current_snippet_id current_page_id].
  rewrite Hp, lookup_fmap.
  destruct (snippet_entries app !! "page_id") as [page_entry|] eqn:He;
    cbn [fmap option_fmap option_map mret G_ret].
  - eexists. split; [by destruct app|]. intros f.
    destruct (decide (f = "page_id")) as [->|Hne].
    + rewrite lookup_insert_eq, He, bool_decide_eq_true_2 by done.
      cbn. by rewrite append_nil_r.
    + rewrite lookup_insert_ne by done.
      cbn [snippet_entries set_current_snippet_id set_snippet_entries].
      rewrite lookup_fmap, bool_decide_eq_false_2 by done.
      by destruct (snippet_entries app !! f).
  - exists (delete_all ∘ configure false <$> snippet_entries app).
    split; [by destruct app|]. intros f. rewrite lookup_fmap.
    destruct (decide (f = "page_id")) as [->|Hne].
    + by rewrite He.
    + rewrite bool_decide_eq_false_2 by done. by destruct (snippet_entries app !! f).
Qed.

(** X23: [_add_page] blanks the page form and forgets the current page, and
    a save that follows at once is refused for the missing identifier: the
    new page has to be typed first. *)
Theorem add_page_then_save (app : App DB) :
  is_Some (page_entries app !! "page_id") →
  (_add_page app).1 = Return ()
  ∧ current_page_id (_add_page app).2 = None
  ∧ (∀ f, page_entries (_add_page app).2 !! f
          = (λ _, {| text := ""; disabled := false |}) <$> page_entries app !! f)
  ∧ _save_page transact select_pages (_add_page app).2
    = (Return (),
       show (showerror "Validation Error" "Page ID is required.") (_add_page app).2).
Proof.
  intros [e He]. unfold _add_page, _clear_page_form. rewrite G_bind_unfold. cbn [update snd fst].
  cbn [current_page_id set_current_page_id page_entries set_page_entries].
  split; [done|]. split; [done|].
  assert (Hf : ∀ f, (delete_all ∘ configure false <$> page_entries app) !! f
                    = (λ _, {| text := ""; disabled := false |}) <$> page_entries app !! f).
  { intros f. rewrite lookup_fmap. by destruct (page_entries app !! f). }
  split; [exact Hf|].
  rewrite save_page_eval. unfold typed.
  cbn [page_entries set_current_page_id set_page_entries].
  by rewrite Hf, He.
Qed.

(** X24: selecting a page and saving it without typing writes back what was
    read, except for the page [0].  When the tree holds the identifier of
    a page as its decimal string, the form has its fields and the row of
    the page has that identifier and a name that [strip] leaves alone, the
    form after [_on_page_select] is valid exactly when the identifier is
    not [0]: its statement then updates that page with the name and the
    description as they were, a blank description as [None].  The
    identifier [0] is shown as a blank field. *)
Theorem select_then_save_page (app : App DB) (page_id : Z) (row : record)
    (name : string) :
  selection (page_tree app) = Some (pretty page_id) →
  select_page (conn app) page_id = Some row →
  (∀ f, f ∈ PAGE_FIELDS.*1 → is_Some (page_entries app !! f)) →
  row !! "page_id" = Some (VInt page_id) →
  row !! "page_name" = Some (VStr name) →
  Py.strip name = name →
  name ≠ "" →
  Py.strip (shown_in_page_form (row !! "page_desc"))
  = shown_in_page_form (row !! "page_desc") →
  page_statement (_on_page_select select_snippets select_page app).2
  = if bool_decide (page_id = 0) then None
    else Some (UpdatePage name (_normalize (shown_in_page_form (row !! "page_desc")))
                 page_id).
Proof.
  intros Hsel Hrow Hentries Hid Hname Hstrip Hne Hdesc.
  destruct (on_page_select_page_side app page_id row Hsel Hrow) as (Hp & _ & _ & Hshown);
    [by intros -> | done |].
  assert (Htyped : ∀ f, f ∈ PAGE_FIELDS.*1 →
            typed (page_entries (_on_page_select select_snippets select_page app).2) f
            = Some (Py.strip (shown_in_page_form (row !! f)))).
  { intros f Hf. specialize (Hshown f Hf). unfold typed.
    destruct (_ !! f) as [e|]; [|done].
    cbn [fmap option_fmap option_map] in *. by injection Hshown as ->. }
  unfold page_statement. rewrite Hp.
  rewrite !Htyped by (apply (bool_decide_unpack _); by vm_compute).
  rewrite Hdesc, Hid, Hname. cbn [shown_in_page_form Py.truthy Py.str default].
  case_bool_decide as Hz.
  - subst page_id. done.
  - apply Z.eqb_neq in Hz. rewrite Hz. cbn [negb].
    rewrite strip_pretty. cbn [mbind option_bind].
    rewrite int_of_str_pretty. cbn [mbind option_bind].
    destruct name as [|c name]; [done|]. rewrite Hstrip.
    cbn [mbind option_bind]. by rewrite bool_decide_eq_false_2.
Qed.

(** X25: the page [0] cannot be edited.  After [_on_page_select] on the
    item of a page whose identifier is [0], the identifier field is blank,
    and [_save_page] answers that the page identifier is required, without
    reaching the database. *)
Theorem page_zero_is_not_saved (app : App DB) (row : record) :
  selection (page_tree app) = Some "0" →
  select_page (conn app) 0 = Some row →
  (∀ f, f ∈ PAGE_FIELDS.*1 → is_Some (page_entries app !! f)) →
  row !! "page_id" = Some (VInt 0) →
  _save_page transact select_pages (_on_page_select select_snippets select_page app).2
  = (Return (),
     show (showerror "Validation Error" "Page ID is required.")
       (_on_page_select select_snippets select_page app).2).
Proof.
  intros Hsel Hrow Hentries Hid.
  destruct (on_page_select_page_side app 0 row Hsel Hrow) as (_ & _ & _ & Hshown);
    [by intros -> | done |].
  assert (Hin : "page_id" ∈ PAGE_FIELDS.*1) by (apply (bool_decide_unpack _); by vm_compute).
  specialize (Hshown "page_id" Hin). rewrite Hid in Hshown.
  rewrite save_page_eval. unfold typed.
  destruct (page_entries _ !! "page_id") as [e|]; [|done].
  cbn [fmap option_fmap option_map] in *. by injection Hshown as ->.
Qed.

(** The loop of [_load_snippets]: rows with fresh identifiers are appended
    to the tree in their order. *)
Lemma load_snippets_loop (rows : list (value * value * value * value)) (app : App DB) :
  NoDup ((items (snippet_tree app)).*1
         ++ ((λ '(snippet_id, _, _, _), Py.str snippet_id) <$> rows)) →
  for_each DB rows (λ '(snippet_id, code, title, active),
    app ← get DB;
    match tree_insert (Py.str snippet_id) [code; or_empty title; active]
            (snippet_tree app) with
    | Return t => update DB (λ app, set_snippet_tree app t)
    | Throw e => throw DB e
    end) app
  = (Return (),
     set_snippet_tree app
       {| items := items (snippet_tree app)
                   ++ ((λ '(snippet_id, code, title, active),
                          (Py.str snippet_id, [code; or_empty title; active])) <$> rows);
          selection := selection (snippet_tree app);
          focus := focus (snippet_tree app) |}).
Proof.
  revert app. induction rows as [|[[[snippet_id code] title] active] rows IH]; intros app Hnd.
  { cbn [for_each fmap list_fmap]. rewrite app_nil_r. by destruct app as [? ? ? ? ? []]. }
  cbn [for_each]. rewrite G_bind_unfold, G_bind_unfold. cbn [get]. unfold tree_insert.
  rewrite fmap_cons in Hnd. apply NoDup_app in Hnd as Hnd'.
  destruct Hnd' as (Hitems & Hfresh & Hrows).
  rewrite bool_decide_eq_false_2; [|intros Hin; apply (Hfresh _ Hin), elem_of_cons; by left].
  cbn [update]. rewrite IH.
  - cbn [snippet_tree set_snippet_tree items selection focus].
    rewrite fmap_cons, <- app_assoc. by destruct app.
  - cbn [snippet_tree set_snippet_tree items]. rewrite fmap_app, <- app_assoc. exact Hnd.
Qed.

Lemma load_pages_loop (rows : list (value * value * value)) (app : App DB) :
  NoDup ((items (page_tree app)).*1
         ++ ((λ '(page_id, _, _), Py.str page_id) <$> rows)) →
  for_each DB rows (λ '(page_id, page_name, page_desc),
    app ← get DB;
    match tree_insert (Py.str page_id) [page_name; or_empty page_desc] (page_tree app) with
    | Return t => update DB (λ app, set_page_tree app t)
    | Throw e => throw DB e
    end) app
  = (Return (),
     set_page_tree app
       {| items := items (page_tree app)
                   ++ ((λ '(page_id, page_name, page_desc),
                          (Py.str page_id, [page_name; or_empty page_desc])) <$> rows);
          selection := selection (page_tree app);
          focus := focus (page_tree app) |}).
Proof.
  revert app. induction rows as [|[[page_id page_name] page_desc] rows IH]; intros app Hnd.
  { cbn [for_each fmap list_fmap]. rewrite app_nil_r. by destruct app as [? ? ? ? [] ?]. }
  cbn [for_each]. rewrite G_bind_unfold, G_bind_unfold. cbn [get]. unfold tree_insert.
  rewrite fmap_cons in Hnd. apply NoDup_app in Hnd as Hnd'.
  destruct Hnd' as (Hitems & Hfresh & Hrows).
  rewrite bool_decide_eq_false_2; [|intros Hin; apply (Hfresh _ Hin), elem_of_cons; by left].
  cbn [update]. rewrite IH.
  - cbn [page_tree set_page_tree items selection focus].
    rewrite fmap_cons, <- app_assoc. by destruct app.
  - cbn [page_tree set_page_tree items]. rewrite fmap_app, <- app_assoc. exact Hnd.
Qed.

(** X26: [_load_snippets] shows the snippets of the page as the query
    gives them: when their identifiers are distinct it returns, and the
    tree holds one item for each row, in the order of the rows, under the
    decimal string of its identifier, with the code, the title (blank when
    it is [None] or empty) and the flag; nothing is selected, and nothing
    but the tree has changed. *)
Theorem load_snippets_shows_rows (page_id : Z) (app : App DB) :
  NoDup ((λ '(snippet_id, _, _, _), Py.str snippet_id)
           <$> select_snippets (conn app) page_id) →
  _load_snippets select_snippets page_id app
  = (Return (),
     set_snippet_tree app
       {| items := (λ '(snippet_id, code, title, active),
                      (Py.str snippet_id, [code; or_empty title; active]))
                   <$> select_snippets (conn app) page_id;
          selection := None; focus := None |}).
Proof.
  intros Hnd. unfold _load_snippets. rewrite G_bind_unfold. cbn [update].
  rewrite G_bind_unfold. cbn [get]. rewrite load_snippets_loop; [by destruct app | done].
Qed.

(** X27: [_load_pages] shows the pages as the query gives them: when their
    identifiers are distinct it returns, and the tree holds one item for
    each row, in the order of the rows, with the name and the description
    (blank when it is [None] or empty); nothing is selected, and nothing
    but the tree has changed. *)
Theorem load_pages_shows_rows (app : App DB) :
  NoDup ((λ '(page_id, _, _), Py.str page_id) <$> select_pages (conn app)) →
  _load_pages select_pages app
  = (Return (),
     set_page_tree app
       {| items := (λ '(page_id, page_name, page_desc),
                      (Py.str page_id, [page_name; or_empty page_desc]))
                   <$> select_pages (conn app);
          selection := None; focus := None |}).
Proof.
  intros Hnd. unfold _load_pages. rewrite G_bind_unfold. cbn [update].
  rewrite G_bind_unfold. cbn [get]. rewrite load_pages_loop; [by destruct app | done].
Qed.

End Facts.

Lemma save_snippet_rejects_witness :
  ∃ d, _save_snippet toy_transact toy_select_snippets
         (toy_app [] [("snippet_id", "12a"); ("active", "1")] (Some 7) None [])
       = (Return (),
          show d (toy_app [] [("snippet_id", "12a"); ("active", "1")] (Some 7) None [])).
Proof.
  exact (save_snippet_rejects toy_transact toy_select_snippets
           (toy_app [] [("snippet_id", "12a"); ("active", "1")] (Some 7) None [])
           eq_refl (or_intror (mk_is_Some _ _ eq_refl))).
Defined.

Lemma save_snippet_transaction_witness :
  conn (_save_snippet toy_transact toy_select_snippets
          (toy_app [] [("snippet_id", "12"); ("title", " Hello "); ("active", "")]
             (Some 7) None [])).2
  = [InsertSnippet 12 7
       [None; None; None; None; None; None; None; None; Some "Hello"; None; None; None] 0].
Proof.
  exact (proj1 (proj2 (save_snippet_transaction toy_transact toy_select_snippets
                         (toy_app [] [("snippet_id", "12"); ("title", " Hello ");
                                      ("active", "")] (Some 7) None [])
                         _ eq_refl) _ eq_refl)).
Defined.

Lemma saved_snippet_and_generator_witness :
  ∃ texts active,
    ((∃ snippet_id page_id,
        InsertSnippet 12 7 (typed_texts (snippet_entries toy_new_snippet)) 0
        = InsertSnippet snippet_id page_id texts active)
     ∨ (∃ current,
          InsertSnippet 12 7 (typed_texts (snippet_entries toy_new_snippet)) 0
          = UpdateSnippet texts active current))
    ∧ typed_active (snippet_entries toy_new_snippet) = Some active
    ∧ _is_snippet_active (written_columns texts active) = Ok (negb (active =? 0))
    ∧ (default "" (typed (snippet_entries toy_new_snippet) "active") = "" →
       _is_snippet_active (written_columns texts active) = Ok false)
    ∧ ∀ column, column ∈ TEXT_COLUMNS →
        render_snippet (token column) (written_columns texts active)
        = default "" (typed (snippet_entries toy_new_snippet) column).
Proof.
  exact (saved_snippet_and_generator toy_new_snippet _ eq_refl).
Defined.

Lemma select_then_save_snippet_witness :
  snippet_statement
    (_on_snippet_select toy_select_snippet (set_snippet_tree toy_listed (toy_tree "12"))).2
  = Some (UpdateSnippet
            [None; None; None; None; None; None; None; None; Some "Hello"; None; None; None]
            1 12).
Proof.
  refine (proj2 (select_then_save_snippet toy_select_snippet
                   (set_snippet_tree toy_listed (toy_tree "12")) 12 7 1 _
                   eq_refl eq_refl eq_refl _ eq_refl (or_introl eq_refl) _)).
  - apply Forall_forall, (bool_decide_unpack _). by vm_compute.
  - apply Forall_forall, (bool_decide_unpack _). by vm_compute.
Defined.

Lemma save_page_rejects_witness :
  ∃ message,
    _save_page toy_transact toy_select_pages
      (toy_app [("page_id", "7x"); ("page_name", "Turkey")] [] None None [])
    = (Return (),
       show (showerror "Validation Error" message)
         (toy_app [("page_id", "7x"); ("page_name", "Turkey")] [] None None [])).
Proof.
  exact (save_page_rejects toy_transact toy_select_pages
           (toy_app [("page_id", "7x"); ("page_name", "Turkey")] [] None None [])
           eq_refl (mk_is_Some _ _ eq_refl) (mk_is_Some _ _ eq_refl)).
Defined.

Lemma save_page_transaction_witness :
  conn (_save_page toy_transact toy_select_pages toy_new_page).2
  = [InsertPage 7 "Turkey" None].
Proof.
  exact (proj2 (proj2 (proj2 (proj2 (proj1 (proj2 (save_page_transaction
           toy_transact toy_select_pages toy_new_page _ eq_refl) _ eq_refl)))))).
Defined.

Lemma add_page_then_save_witness :
  _save_page toy_transact toy_select_pages (_add_page toy_new_page).2
  = (Return (),
     show (showerror "Validation Error" "Page ID is required.") (_add_page toy_new_page).2).
Proof.
  exact (proj2 (proj2 (proj2 (add_page_then_save toy_transact toy_select_pages
                                toy_new_page (mk_is_Some _ _ eq_refl))))).
Defined.

Lemma select_then_save_page_witness :
  page_statement
    (_on_page_select toy_select_snippets toy_select_page
       (set_page_tree toy_listed (toy_tree "7"))).2
  = Some (UpdatePage "Turkey" (Some "Trips to Turkey") 7).
Proof.
  assert (Hne : "Turkey" ≠ "") by discriminate.
  refine (select_then_save_page toy_select_snippets toy_select_page
            (set_page_tree toy_listed (toy_tree "7")) 7 _ "Turkey"
            eq_refl eq_refl _ eq_refl eq_refl eq_refl Hne eq_refl).
  apply Forall_forall, (bool_decide_unpack _). by vm_compute.
Defined.

Lemma page_zero_is_not_saved_witness :
  _save_page toy_transact toy_select_pages
    (_on_page_select toy_select_snippets toy_select_page
       (set_page_tree toy_listed (toy_tree "0"))).2
  = (Return (),
     show (showerror "Validation Error" "Page ID is required.")
       (_on_page_select toy_select_snippets toy_select_page
          (set_page_tree toy_listed (toy_tree "0"))).2).
Proof.
  refine (page_zero_is_not_saved toy_transact toy_select_pages toy_select_snippets
            toy_select_page (set_page_tree toy_listed (toy_tree "0")) _
            eq_refl eq_refl _ eq_refl).
  apply Forall_forall, (bool_decide_unpack _). by vm_compute.
Defined.

Lemma load_snippets_shows_rows_witness :
  _load_snippets toy_select_snippets 7 toy_listed
  = (Return (),
     set_snippet_tree toy_listed
       {| items := [("12", [VNone; VStr "Hello"; VInt 1]);
                    ("15", [VStr "W"; VStr ""; VInt 0])];
          selection := None; focus := None |}).
Proof.
  refine (load_snippets_shows_rows toy_select_snippets 7 toy_listed _).
  apply (bool_decide_unpack _). by vm_compute.
Defined.

Lemma load_pages_shows_rows_witness :
  _load_pages toy_select_pages toy_listed
  = (Return (),
     set_page_tree toy_listed
       {| items := [("0", [VStr "Home"; VStr ""]);
                    ("7", [VStr "Turkey"; VStr "Trips to Turkey"])];
          selection := None; focus := None |}).
Proof.
  refine (load_pages_shows_rows toy_select_pages toy_listed _).
  apply (bool_decide_unpack _). by vm_compute.
Defined.

End GuiFacts.
